(** * MATLAB-Calculator-on-py: shortcut expansion and SymPy-to-MATLAB printing

    A shallow embedding of the two text transformations of the calculator:

    - [ExpressionShortcuts] (src/latex_pack/shortcut.py): the shortcut tables,
      [get_all_shortcuts] and [convert_shortcut];
    - [SympyToMatlab] (src/matlab_interface/sympy_to_matlab.py):
      [sympy_to_matlab] and its handlers.

    A Python [str] is modelled by [string]; one [ascii] stands for one code
    point in the range U+0000..U+00FF.  A Python call that can raise returns
    in the error monad [Exc]. *)

From Stdlib Require Import String Ascii List ZArith Bool Lia DecimalString.
Import ListNotations.
Local Open Scope list_scope.
Local Open Scope string_scope.

(** ** Exceptions *)

Inductive exn : Type :=
| ValueError (msg : string)          (* raise ValueError(msg) *)
| UnpackError (expected got : nat)   (* ValueError of a failed unpacking *)
| IndexError.                        (* index out of range *)

Inductive Exc (A : Type) : Type :=
| OK (a : A)
| Raise (e : exn).

Arguments OK {A} a.
Arguments Raise {A} e.

Definition bind {A B : Type} (m : Exc A) (k : A -> Exc B) : Exc B :=
  match m with
  | OK a => k a
  | Raise e => Raise e
  end.

Declare Scope exc_scope.
Delimit Scope exc_scope with exc.
Notation "x <- m ;; k" := (bind m (fun x => k))
  (at level 61, m at next level, right associativity) : exc_scope.
Notation "' p <- m ;; k" := (bind m (fun x => match x with p => k end))
  (at level 61, p pattern, m at next level, right associativity) : exc_scope.
Local Open Scope exc_scope.

(** ** Python string primitives *)

Module PyStr.

(** [s.startswith(p)] *)
Fixpoint startswith (p s : string) : bool :=
  match p with
  | EmptyString => true
  | String a p' =>
      match s with
      | EmptyString => false
      | String b s' => Ascii.eqb a b && startswith p' s'
      end
  end.

(** [needle in s] *)
Fixpoint contains (needle s : string) : bool :=
  startswith needle s ||
  match s with
  | EmptyString => false
  | String _ s' => contains needle s'
  end.

(** [s[1:2]]: the second character as a string; a slice that reaches
    past the end is empty. *)
Definition slice_1_2 (s : string) : string :=
  match s with
  | String _ (String c _) => String c EmptyString
  | _ => EmptyString
  end.

(** [c.isdigit()] on U+0000..U+00FF: the ten decimal digits and the
    superscripts U+00B2, U+00B3 and U+00B9. *)
Definition char_isdigit (c : ascii) : bool :=
  let n := nat_of_ascii c in
  ((48 <=? n)%nat && (n <=? 57)%nat)
  || (n =? 178)%nat || (n =? 179)%nat || (n =? 185)%nat.

Fixpoint all_chars (p : ascii -> bool) (s : string) : bool :=
  match s with
  | EmptyString => true
  | String c s' => p c && all_chars p s'
  end.

(** [s.isdigit()]: every character is a digit and there is at least one. *)
Definition isdigit (s : string) : bool :=
  match s with
  | EmptyString => false
  | _ => all_chars char_isdigit s
  end.

(** [s.split(' ', 1)]: at most one split, at the first space. *)
Fixpoint split_space_1 (s : string) : list string :=
  match s with
  | EmptyString => [EmptyString]
  | String c s' =>
      if Ascii.eqb c " " then [EmptyString; s']
      else match split_space_1 s' with
           | p :: rest => String c p :: rest
           | [] => [String c EmptyString]
           end
  end.

(** [s.replace(old, new)] for a non-empty [old]: occurrences are found from
    the left and do not overlap.  [skip] counts the characters of a matched
    occurrence that are still to be dropped. *)
Fixpoint replace_from (old new : string) (skip : nat) (s : string) : string :=
  match s with
  | EmptyString => EmptyString
  | String c s' =>
      match skip with
      | S k => replace_from old new k s'
      | O =>
          if startswith old s
          then new ++ replace_from old new (String.length old - 1) s'
          else String c (replace_from old new 0 s')
      end
  end.

(** With an empty [old], Python puts [new] before every character and at
    the end. *)
Fixpoint intersperse (new s : string) : string :=
  match s with
  | EmptyString => new
  | String c s' => new ++ String c (intersperse new s')
  end.

Definition replace (old new s : string) : string :=
  match old with
  | EmptyString => intersperse new s
  | _ => replace_from old new 0 s
  end.

(** [sep.join(parts)] *)
Fixpoint join (sep : string) (parts : list string) : string :=
  match parts with
  | [] => EmptyString
  | [p] => p
  | p :: rest => p ++ sep ++ join sep rest
  end.

(** The number of occurrences of a character. *)
Fixpoint count_char (c : ascii) (s : string) : nat :=
  match s with
  | EmptyString => 0
  | String d s' => (if Ascii.eqb c d then 1 else 0) + count_char c s'
  end.

End PyStr.

(** ** The fragment of [re] used by the derivative patterns *)

Module Re.

(** A one-character matcher. *)
Inductive atom : Type :=
| Lit (c : ascii)          (* a literal character *)
| Digit                    (* \d *)
| OneOf (cs : string).     (* [...] *)

(** [\d] on U+0000..U+00FF is exactly 0-9. *)
Definition is_decimal (c : ascii) : bool :=
  let n := nat_of_ascii c in (48 <=? n)%nat && (n <=? 57)%nat.

Fixpoint mem (c : ascii) (cs : string) : bool :=
  match cs with
  | EmptyString => false
  | String d cs' => Ascii.eqb c d || mem c cs'
  end.

Definition atom_ok (a : atom) (c : ascii) : bool :=
  match a with
  | Lit d => Ascii.eqb c d
  | Digit => is_decimal c
  | OneOf cs => mem c cs
  end.

(** A pattern is a sequence of pieces; [group = true] puts the piece in
    parentheses. *)
Inductive piece : Type :=
| One (group : bool) (a : atom)     (* one character of the atom *)
| Star (group : bool) (a : atom).   (* the greedy star of the atom *)

Definition pattern : Type := list piece.

Definition capture (group : bool) (s : string) (gs : list string) : list string :=
  if group then s :: gs else gs.

(** [star a k s]: the greedy star of [a] followed by the continuation [k].  The
    longest run is tried first and given back one character at a time; the
    result is the text taken by the star with the groups of [k]. *)
Fixpoint star (a : atom) (k : string -> option (list string)) (s : string)
  : option (string * list string) :=
  let stop := option_map (fun gs => (EmptyString, gs)) (k s) in
  match s with
  | EmptyString => stop
  | String c s' =>
      if atom_ok a c then
        match star a k s' with
        | Some (taken, gs) => Some (String c taken, gs)
        | None => stop
        end
      else stop
  end.

(** Matching at the start of the string; the groups are returned in
    order. *)
Fixpoint match_here (p : pattern) : string -> option (list string) :=
  match p with
  | [] => fun _ => Some []
  | One g a :: p' =>
      fun s =>
        match s with
        | EmptyString => None
        | String c s' =>
            if atom_ok a c
            then option_map (capture g (String c EmptyString)) (match_here p' s')
            else None
        end
  | Star g a :: p' =>
      fun s =>
        option_map (fun r => capture g (fst r) (snd r)) (star a (match_here p') s)
  end.

(** [re.match(p, s)]: a match object (here its groups) or [None]. *)
Definition re_match (p : pattern) (s : string) : option (list string) :=
  match_here p s.

(** [m.group(i)] for [i >= 1] *)
Definition group (m : list string) (i : nat) : string :=
  nth (i - 1) m EmptyString.

End Re.

(** ** src/latex_pack/shortcut.py: class ExpressionShortcuts *)

Module ExpressionShortcuts.
Import PyStr.

(** A Python [dict] with string keys and values, in insertion order. *)
Definition dict : Type := list (string * string).

(** [d[k] = v]: an existing key keeps its place, a new key goes last. *)
Fixpoint dict_set (k v : string) (d : dict) : dict :=
  match d with
  | [] => [(k, v)]
  | (k', v') :: d' =>
      if String.eqb k k' then (k, v) :: d' else (k', v') :: dict_set k v d'
  end.

(** [d.update(other)] *)
Definition dict_update (d other : dict) : dict :=
  fold_left (fun acc kv => dict_set (fst kv) (snd kv) acc) other d.

Definition DERIVATIVE_SHORTCUTS : dict :=
  [ ("d/dx", "\frac{d}{dx}");
    ("d/dy", "\frac{d}{dy}");
    ("d/dt", "\frac{d}{dt}");
    ("d2/dx2", "\frac{d^2}{dx^2}");
    ("d3/dx3", "\frac{d^3}{dx^3}");
    ("d4/dx4", "\frac{d^4}{dx^4}");
    ("d5/dx5", "\frac{d^5}{dx^5}") ].

Definition INTEGRAL_SHORTCUTS : dict :=
  [ ("int", "\int");
    ("integral", "\int");
    ("iint", "\iint");
    ("iiint", "\iiint");
    ("oint", "\oint") ].

Definition FUNCTION_SHORTCUTS : dict :=
  [ ("sqrt", "\sqrt");
    ("root", "\sqrt");
    ("abs", "\left|#\right|");
    ("sin", "\sin");
    ("cos", "\cos");
    ("tan", "\tan");
    ("csc", "\csc");
    ("sec", "\sec");
    ("cot", "\cot");
    ("arcsin", "\arcsin");
    ("arccos", "\arccos");
    ("arctan", "\arctan");
    ("ln", "\ln");
    ("lg", "\log");
    ("log", "\log");
    ("log10", "\log_{10}");
    ("log2", "\log_{2}") ].

Definition FRACTION_SHORTCUTS : dict :=
  [ ("//", "\frac{#}{#}") ].

Definition GREEK_SHORTCUTS : dict :=
  [ ("alpha", "\alpha");
    ("beta", "\beta");
    ("gamma", "\gamma");
    ("delta", "\delta");
    ("epsilon", "\epsilon");
    ("zeta", "\zeta");
    ("eta", "\eta");
    ("theta", "\theta");
    ("iota", "\iota");
    ("kappa", "\kappa");
    ("lambda", "\lambda");
    ("mu", "\mu");
    ("nu", "\nu");
    ("xi", "\xi");
    ("pi", "\pi");
    ("rho", "\rho");
    ("sigma", "\sigma");
    ("tau", "\tau");
    ("upsilon", "\upsilon");
    ("phi", "\phi");
    ("chi", "\chi");
    ("psi", "\psi");
    ("omega", "\omega") ].

Definition OPERATOR_SHORTCUTS : dict :=
  [ ("sum", "\sum");
    ("prod", "\prod");
    ("lim", "\lim");
    ("to", "\to");
    ("rightarrow", "\rightarrow");
    ("leftarrow", "\leftarrow");
    ("infty", "\infty");
    ("infinity", "\infty") ].

Definition get_all_shortcuts : dict :=
  let all_shortcuts := [] in
  let all_shortcuts := dict_update all_shortcuts DERIVATIVE_SHORTCUTS in
  let all_shortcuts := dict_update all_shortcuts INTEGRAL_SHORTCUTS in
  let all_shortcuts := dict_update all_shortcuts FUNCTION_SHORTCUTS in
  let all_shortcuts := dict_update all_shortcuts FRACTION_SHORTCUTS in
  let all_shortcuts := dict_update all_shortcuts GREEK_SHORTCUTS in
  let all_shortcuts := dict_update all_shortcuts OPERATOR_SHORTCUTS in
  all_shortcuts.

(** The pattern of [d2/dx2]: d, digits (group 1), a slash, d, one of x y z
    (group 2), digits (group 3). *)
Definition slash_pattern : Re.pattern :=
  [ Re.One false (Re.Lit "d"); Re.Star true Re.Digit;
    Re.One false (Re.Lit "/"); Re.One false (Re.Lit "d");
    Re.One true (Re.OneOf "xyz"); Re.Star true Re.Digit ].

(** The pattern of [d2x]: d, digits (group 1), one of x y z (group 2). *)
Definition plain_pattern : Re.pattern :=
  [ Re.One false (Re.Lit "d"); Re.Star true Re.Digit;
    Re.One true (Re.OneOf "xyz") ].

(** [a or b] on strings: the empty string is falsy. *)
Definition str_or (a b : string) : string :=
  match a with
  | EmptyString => b
  | _ => a
  end.

(** [derivative_part, function_part = parts] *)
Definition unpack2 (parts : list string) : Exc (string * string) :=
  match parts with
  | [a; b] => OK (a, b)
  | _ => Raise (UnpackError 2 (length parts))
  end.

(** [f"\\frac{{d^{order}}}{{d{var}^{order}}} {function_part}"] *)
Definition frac_template (order var function_part : string) : string :=
  "\frac{d^" ++ order ++ "}{d" ++ var ++ "^" ++ order ++ "} " ++ function_part.

(** The pattern tried on [derivative_part]: the slash notation when it
    holds a slash, the notation without slash otherwise. *)
Definition derivative_pattern (derivative_part : string) : Re.pattern :=
  if contains "/" derivative_part then slash_pattern else plain_pattern.

(** The block under [if len(parts) == 2]; it ends in [return result]. *)
Definition derivative_block (result : string) (parts : list string) : Exc string :=
  ' (derivative_part, function_part) <- unpack2 parts ;;
  let result :=
    if contains "/" derivative_part then
      match Re.re_match slash_pattern derivative_part with
      | Some order_match =>
          let order := str_or (Re.group order_match 1) "1" in
          let var := Re.group order_match 2 in
          frac_template order var function_part
      | None => result
      end
    else
      match Re.re_match plain_pattern derivative_part with
      | Some order_match =>
          let order := str_or (Re.group order_match 1) "1" in
          let var := Re.group order_match 2 in
          frac_template order var function_part
      | None => result
      end in
  OK result.

(** The test that opens the derivative notation. *)
Definition derivative_guard (text : string) : bool :=
  startswith "d" text && (contains "/" text || isdigit (slice_1_2 text)).

(** One turn of the loop over [shortcuts.items()]. *)
Definition apply_shortcut (result : string) (item : string * string) : string :=
  let (shortcut, latex) := item in
  if contains shortcut result && negb (contains "#" latex)
  then replace shortcut latex result
  else result.

(** The code after the derivative notation: "Handle other shortcuts". *)
Definition other_shortcuts (result : string) : string :=
  let shortcuts := get_all_shortcuts in
  fold_left apply_shortcut shortcuts result.

Definition convert_shortcut (text : string) : Exc string :=
  let result := text in
  if derivative_guard text then
    let parts := split_space_1 text in
    if (List.length parts =? 2)%nat
    then derivative_block result parts
    else OK (other_shortcuts result)
  else OK (other_shortcuts result).

(** *** Notions used to state the behaviour of [convert_shortcut] *)

(** [t] occurs in [r] and is not the whole of [r]. *)
Definition strict_substring (t r : string) : bool :=
  contains t r && negb (String.eqb t r).

(** The derivative notation is recognized: the guard holds, the text has
    two parts and the pattern matches the first. *)
Definition derivative_recognized (text : string) : bool :=
  derivative_guard text &&
  match split_space_1 text with
  | [derivative_part; _] =>
      match Re.re_match (derivative_pattern derivative_part) derivative_part with
      | Some _ => true
      | None => false
      end
  | _ => false
  end.

(** A key of the merged table, with a replacement free of the placeholder
    marker, occurs in the text. *)
Definition table_token_in (text : string) : bool :=
  existsb (fun item => contains (fst item) text && negb (contains "#" (snd item)))
          get_all_shortcuts.

Definition recognized (text : string) : bool :=
  derivative_recognized text || table_token_in text.

(** The keys on which a second key of the table fires as well: [int]
    inside [integral], [log] inside the replacement of [lg] and inside
    [log10] and [log2]. *)
Definition twice_replaced : list string :=
  [ "integral"; "lg"; "log10"; "log2" ].

(** The behaviour of [convert_shortcut] on a key of the table, as a check
    that can be run on every entry. *)
Definition token_check (item : string * string) : bool :=
  let (t, r) := item in
  contains "#" r ||
  match convert_shortcut t with
  | OK out =>
      (negb (contains t out) || strict_substring t r) &&
      (strict_substring t r ||
       String.eqb out
         (if existsb (String.eqb t) twice_replaced then "\" ++ r else r))
  | Raise _ => false
  end.

(** An entry whose key is not empty and free of backslashes, and whose
    replacement, when it is one the loop applies, brings a backslash. *)
Definition adds_backslash (item : string * string) : bool :=
  negb (String.eqb (fst item) EmptyString) &&
  (count_char "\" (fst item) =? 0)%nat &&
  (contains "#" (snd item) || (1 <=? count_char "\" (snd item))%nat).

(** The block under [if len(parts) == 2] is entered: the guard holds and
    the text has two parts. *)
Definition block_entered (text : string) : bool :=
  derivative_guard text && (List.length (split_space_1 text) =? 2)%nat.

End ExpressionShortcuts.

(** ** src/matlab_interface/sympy_to_matlab.py: class SympyToMatlab *)

Module SympyToMatlab.
Import PyStr.

(** An entry of [Derivative.variables]: a symbol, or the pair
    [(var, order)] of the branch guarded by [isinstance(var_info, tuple)]. *)
Inductive var_slot (E : Type) : Type :=
| Var (v : E)
| VarOrder (v : E) (order : Z).

Arguments Var {E} v.
Arguments VarOrder {E} v order.

(** The SymPy objects the converter tells apart with [isinstance];
    [Generic text] is any other object, given by its [str] form. *)
#[warning="-register-all"] Inductive Expr : Type :=
| Integral (function : Expr) (limits : list (list Expr))
| Derivative (expr : Expr) (variables : list (var_slot Expr))
             (derivative_count : Z)
| Eq (lhs rhs : Expr)
| Function (name : string) (args : list Expr)
| Generic (text : string).

(** The argument of [sympy_to_matlab]: a SymPy object or a Python list of
    them. *)
Inductive PyArg : Type :=
| Obj (e : Expr)
| PyList (items : list Expr).

(** [str(n)] for a Python [int] *)
Definition str_int (n : Z) : string := NilZero.string_of_int (Z.to_int n).

(** [t[0]] *)
Definition index0 {A : Type} (t : list A) : Exc A :=
  match t with
  | x :: _ => OK x
  | [] => Raise IndexError
  end.

(** [var, lower, upper = var_info] *)
Definition unpack3 {A : Type} (t : list A) : Exc (A * A * A) :=
  match t with
  | [a; b; c] => OK (a, b, c)
  | _ => Raise (UnpackError 3 (List.length t))
  end.

(** [[f(x) for x in xs]]: left to right, stopping at the first exception. *)
Definition mapM {A B : Type} (f : A -> Exc B) : list A -> Exc (list B) :=
  fix go (xs : list A) : Exc (list B) :=
    match xs with
    | [] => OK []
    | x :: xs' => y <- f x ;; ys <- go xs' ;; OK (y :: ys)
    end.

(** [d.get(k, default)] *)
Fixpoint dict_get (d : list (string * string)) (k default : string) : string :=
  match d with
  | [] => default
  | (k', v) :: d' => if String.eqb k k' then v else dict_get d' k default
  end.

Definition function_mappings : list (string * string) :=
  [ ("sin", "sin");
    ("cos", "cos");
    ("tan", "tan");
    ("csc", "csc");
    ("sec", "sec");
    ("cot", "cot");
    ("arcsin", "asin");
    ("arccos", "acos");
    ("arctan", "atan");
    ("ln", "log");
    ("log10", "log10");
    ("log2", "log2") ].

Definition replacements : list (string * string) :=
  [ ("**", "^") ].

Section Converter.

(** SymPy's printer on [Integral], [Derivative], [Eq] and [Function]
    objects; SymPy is not part of the repository. *)
Variable sstr : Expr -> string.

(** [str(expr)], also what an f-string field [{expr}] shows. *)
Definition str (e : Expr) : string :=
  match e with
  | Generic text => text
  | _ => sstr e
  end.

Definition sympy_to_str (expr : Expr) : string := str expr.

Definition _handle_list_expression (expr : PyArg) : Exc Expr :=
  match expr with
  | PyList items =>
      match items with
      | [] => Raise (ValueError "Empty expression list")
      | first :: _ => OK first
      end
  | Obj e => OK e
  end.

(** The handlers take the fields they read and, as [self], the
    conversion they call back. *)
Definition _handle_integral (self : Expr -> Exc string)
    (function : Expr) (limits : list (list Expr)) : Exc string :=
  let integrand := function in
  integrand_str <-
    match integrand with
    | Integral _ _ => self integrand
    | _ => OK (sympy_to_str integrand)
    end ;;
  var_info <- index0 limits ;;
  if (List.length var_info =? 1)%nat then
    var <- index0 var_info ;;
    OK ("int(" ++ integrand_str ++ ", '" ++ str var ++ "')")
  else
    ' (var, lower, upper) <- unpack3 var_info ;;
    OK ("int(" ++ integrand_str ++ ", '" ++ str var ++ "', "
          ++ str lower ++ ", " ++ str upper ++ ")").

Definition _handle_derivative (self : Expr -> Exc string)
    (expr : Expr) (variables : list (var_slot Expr)) (derivative_count : Z)
  : Exc string :=
  let func_expr := expr in
  var_info <- index0 variables ;;
  let (var, order) :=
    match var_info with
    | VarOrder var order => (var, order)
    | Var var => (var, derivative_count)
    end in
  func_str <- self func_expr ;;
  if (order =? 1)%Z
  then OK ("diff(" ++ func_str ++ ", '" ++ str var ++ "')")
  else OK ("diff(" ++ func_str ++ ", '" ++ str var ++ "', "
             ++ str_int order ++ ")").

Definition _handle_equation (self : Expr -> Exc string) (lhs rhs : Expr)
  : Exc string :=
  l <- self lhs ;;
  r <- self rhs ;;
  OK (l ++ " == " ++ r).

Definition _handle_function (self : Expr -> Exc string)
    (func_name : string) (args : list Expr) : Exc string :=
  let matlab_func := dict_get function_mappings func_name func_name in
  converted <- mapM self args ;;
  let matlab_args := join ", " converted in
  if String.eqb func_name "abs"
  then OK ("abs(" ++ matlab_args ++ ")")
  else OK (matlab_func ++ "(" ++ matlab_args ++ ")").

Definition _process_expression_string (expr : Expr) : string :=
  let expr_str := str expr in
  fold_left (fun expr_str item => replace (fst item) (snd item) expr_str)
            replacements expr_str.

(** [sympy_to_matlab] on a SymPy object, where [_handle_list_expression]
    does nothing; every call of the handlers comes back here. *)
Fixpoint sympy_to_matlab_expr (expr : Expr) : Exc string :=
  match expr with
  | Integral function limits =>
      _handle_integral sympy_to_matlab_expr function limits
  | Derivative e variables derivative_count =>
      _handle_derivative sympy_to_matlab_expr e variables derivative_count
  | Eq lhs rhs => _handle_equation sympy_to_matlab_expr lhs rhs
  | Function name args => _handle_function sympy_to_matlab_expr name args
  | Generic _ => OK (_process_expression_string expr)
  end.

Definition sympy_to_matlab (expr : PyArg) : Exc string :=
  expr <- _handle_list_expression expr ;;
  sympy_to_matlab_expr expr.

End Converter.

(** A stand-in for SymPy's printer where a concrete one is needed. *)
Definition no_printer (e : Expr) : string := EmptyString.

(** *** The substitution of the generic case, in the words of the
    specification: every [**] becomes [^], nothing else changes. *)
Fixpoint power_to_caret (s : string) : string :=
  match s with
  | EmptyString => EmptyString
  | String c s' =>
      match s' with
      | String d s'' =>
          if Ascii.eqb c "*" && Ascii.eqb d "*"
          then String "^" (power_to_caret s'')
          else String c (power_to_caret s')
      | EmptyString => s
      end
  end.

(** A text without any star. *)
Definition star_free (s : string) : bool :=
  all_chars (fun c => negb (Ascii.eqb c "*")) s.

(** The expressions built without [Integral], whose function names are
    free of stars and whose derivatives are taken with respect to a plain
    symbol with a name free of stars. *)
Fixpoint integral_free (e : Expr) : bool :=
  match e with
  | Integral _ _ => false
  | Derivative expr variables _ =>
      integral_free expr &&
      match variables with
      | Var (Generic name) :: _ => star_free name
      | VarOrder (Generic name) _ :: _ => star_free name
      | _ => false
      end
  | Eq lhs rhs => integral_free lhs && integral_free rhs
  | Function name args => star_free name && forallb integral_free args
  | Generic _ => true
  end.

(** The characters of a text that are neither a star nor a caret. *)
Fixpoint other_chars (s : string) : string :=
  match s with
  | EmptyString => EmptyString
  | String c s' =>
      if Ascii.eqb c "*" || Ascii.eqb c "^"
      then other_chars s'
      else String c (other_chars s')
  end.

End SympyToMatlab.


(** * Properties *)

#[local] Arguments Ascii.eqb : simpl never.

(** ** Strings *)

Module PyStrFacts.
Import PyStr.

Lemma startswith_refl_app (p s : string) : startswith p (p ++ s) = true.
Proof.
  induction p as [|a p IH]; simpl; [reflexivity|].
  now rewrite Ascii.eqb_refl, IH.
Qed.

Lemma startswith_contains (n s : string) :
  startswith n s = true -> contains n s = true.
Proof.
  intros H. destruct s; simpl; rewrite H; reflexivity.
Qed.

Lemma contains_app_r (n a b : string) :
  contains n b = true -> contains n (a ++ b) = true.
Proof.
  intros H. induction a as [|c a IH]; simpl; [exact H|].
  rewrite IH. apply orb_true_r.
Qed.

Lemma startswith_app_l (n a b : string) :
  startswith n a = true -> startswith n (a ++ b) = true.
Proof.
  revert a. induction n as [|c n IH]; intros a H; [reflexivity|].
  destruct a as [|d a]; simpl in *; [discriminate|].
  apply andb_true_iff in H. destruct H as [Hc Hn].
  now rewrite Hc, (IH a Hn).
Qed.

Lemma contains_app_l (n a b : string) :
  contains n a = true -> contains n (a ++ b) = true.
Proof.
  induction a as [|c a IH]; intros H.
  - simpl in H. rewrite orb_false_r in H.
    destruct n; [|discriminate]. now destruct b.
  - simpl in H. apply orb_true_iff in H. destruct H as [H|H].
    + apply startswith_contains. now apply (startswith_app_l n (String c a) b).
    + simpl. rewrite (IH H). apply orb_true_r.
Qed.

Lemma contains_middle (n a b : string) : contains n (a ++ n ++ b) = true.
Proof.
  apply contains_app_r, startswith_contains, startswith_refl_app.
Qed.

Lemma contains_cons_false (n : string) (c : ascii) (s : string) :
  contains n (String c s) = false ->
  startswith n (String c s) = false /\ contains n s = false.
Proof.
  simpl. intros H. apply orb_false_iff in H. exact H.
Qed.

(** A single character occurs in a string exactly when some character of
    the string equals it. *)
Lemma contains_char (c : ascii) (s : string) :
  contains (String c EmptyString) s = negb (all_chars (fun d => negb (Ascii.eqb c d)) s).
Proof.
  induction s as [|d s IH]; simpl; [reflexivity|].
  rewrite IH. destruct (Ascii.eqb c d); reflexivity.
Qed.

Lemma append_empty_r (s : string) : s ++ EmptyString = s.
Proof. induction s as [|c s IH]; simpl; [reflexivity|now rewrite IH]. Qed.

Lemma append_assoc (a b c : string) : (a ++ b) ++ c = a ++ b ++ c.
Proof. induction a as [|x a IH]; simpl; [reflexivity|now rewrite IH]. Qed.

Lemma all_chars_app (p : ascii -> bool) (a b : string) :
  all_chars p (a ++ b) = all_chars p a && all_chars p b.
Proof.
  induction a as [|c a IH]; simpl; [reflexivity|].
  now rewrite IH, andb_assoc.
Qed.

Lemma all_chars_impl (p q : ascii -> bool) (s : string) :
  (forall c, p c = true -> q c = true) ->
  all_chars p s = true -> all_chars q s = true.
Proof.
  intros Hpq. induction s as [|c s IH]; simpl; [reflexivity|].
  intros H. apply andb_true_iff in H. destruct H as [Hc Hs].
  now rewrite (Hpq c Hc), IH.
Qed.

Lemma startswith_iff (p s : string) :
  startswith p s = true <-> exists rest, s = p ++ rest.
Proof.
  split.
  - revert s. induction p as [|a p IH]; intros s H; [now exists s|].
    destruct s as [|b s]; simpl in H; [discriminate|].
    apply andb_true_iff in H. destruct H as [Hab Hp].
    apply Ascii.eqb_eq in Hab. subst b.
    destruct (IH s Hp) as [rest ->]. now exists rest.
  - intros [rest ->]. apply startswith_refl_app.
Qed.

(** [contains] is the substring test. *)
Lemma contains_iff (n s : string) :
  contains n s = true <-> exists a b, s = a ++ n ++ b.
Proof.
  split.
  - induction s as [|c s IH]; simpl; intros H.
    + rewrite orb_false_r in H. apply startswith_iff in H.
      destruct H as [rest H]. now exists EmptyString, rest.
    + apply orb_true_iff in H. destruct H as [H|H].
      * apply startswith_iff in H. destruct H as [rest H].
        now exists EmptyString, rest.
      * destruct (IH H) as [a [b ->]]. now exists (String c a), b.
  - intros [a [b ->]]. apply contains_middle.
Qed.

(** Without an occurrence, [replace] changes nothing: the test
    [shortcut in result] of the loop only saves the call. *)
Lemma replace_absent (old new s : string) :
  old <> EmptyString -> contains old s = false -> replace old new s = s.
Proof.
  intros Hold. unfold replace. destruct old as [|o old]; [contradiction|].
  induction s as [|c s IH]; intros H; [reflexivity|].
  apply contains_cons_false in H. destruct H as [Hh Ht].
  cbn [replace_from]. rewrite Hh. f_equal. exact (IH Ht).
Qed.

Lemma split_space_1_none (s : string) :
  contains " " s = false -> split_space_1 s = [s].
Proof.
  induction s as [|c s IH]; simpl; intros H; [reflexivity|].
  apply orb_false_iff in H. destruct H as [Hc Hs].
  rewrite andb_true_r, Ascii.eqb_sym in Hc.
  now rewrite Hc, (IH Hs).
Qed.

Lemma split_space_1_cases (s : string) :
  (exists a, split_space_1 s = [a]) \/ (exists a b, split_space_1 s = [a; b]).
Proof.
  induction s as [|c s IH]; simpl.
  - left. now exists EmptyString.
  - destruct (Ascii.eqb c " ").
    + right. now exists EmptyString, s.
    + destruct IH as [[a Ha]|[a [b Hab]]].
      * left. rewrite Ha. now exists (String c a).
      * right. rewrite Hab. now exists (String c a), b.
Qed.

Lemma split_space_1_at_first (a b : string) :
  contains " " a = false -> split_space_1 (a ++ " " ++ b) = [a; b].
Proof.
  induction a as [|c a IH]; simpl; intros H; [reflexivity|].
  apply orb_false_iff in H. destruct H as [Hc Ha].
  rewrite andb_true_r in Hc. rewrite Ascii.eqb_sym in Hc.
  rewrite Hc. specialize (IH Ha). simpl in IH. now rewrite IH.
Qed.

End PyStrFacts.

(** ** The derivative patterns *)

Module ReFacts.
Import PyStr PyStrFacts Re.

Lemma match_here_One (g : bool) (a : atom) (p : pattern) (c : ascii) (s : string) :
  match_here (One g a :: p) (String c s) =
  if atom_ok a c
  then option_map (capture g (String c EmptyString)) (match_here p s)
  else None.
Proof. reflexivity. Qed.

Lemma match_here_Star (g : bool) (a : atom) (p : pattern) (s : string) :
  match_here (Star g a :: p) s =
  option_map (fun r => capture g (fst r) (snd r)) (star a (match_here p) s).
Proof. reflexivity. Qed.

Lemma star_stop (a : atom) (k : string -> option (list string))
    (c : ascii) (s : string) :
  atom_ok a c = false ->
  star a k (String c s) = option_map (fun gs => (EmptyString, gs)) (k (String c s)).
Proof. intros H. simpl. now rewrite H. Qed.

(** A run of matching characters in front of a successful star is taken
    whole. *)
Lemma star_run (a : atom) (k : string -> option (list string))
    (o rest taken : string) (gs : list string) :
  all_chars (atom_ok a) o = true ->
  star a k rest = Some (taken, gs) ->
  star a k (o ++ rest) = Some (o ++ taken, gs).
Proof.
  intros Ho Hrest. induction o as [|c o IH]; simpl in *; [exact Hrest|].
  apply andb_true_iff in Ho. destruct Ho as [Hc Ho].
  now rewrite Hc, (IH Ho).
Qed.

(** A run of matching characters in front of a failing star fails: giving
    characters back does not help when the continuation rejects them. *)
Lemma star_run_fails (a : atom) (k : string -> option (list string))
    (o rest : string) :
  all_chars (atom_ok a) o = true ->
  (forall c s, atom_ok a c = true -> k (String c s) = None) ->
  star a k rest = None ->
  star a k (o ++ rest) = None.
Proof.
  intros Ho Hk Hrest. induction o as [|c o IH]; simpl in *; [exact Hrest|].
  apply andb_true_iff in Ho. destruct Ho as [Hc Ho].
  now rewrite Hc, (IH Ho), (Hk c _ Hc).
Qed.

Lemma star_to_end (a : atom) (o : string) :
  all_chars (atom_ok a) o = true ->
  star a (match_here []) o = Some (o, []).
Proof.
  intros Ho. induction o as [|c o IH]; simpl in *; [reflexivity|].
  apply andb_true_iff in Ho. destruct Ho as [Hc Ho].
  now rewrite Hc, (IH Ho).
Qed.

Lemma decimal_not_space (c : ascii) : is_decimal c = true -> Ascii.eqb " " c = false.
Proof.
  intros H. destruct (Ascii.eqb_spec " " c) as [<-|]; [discriminate H|reflexivity].
Qed.

Lemma xyz_not_space (c : ascii) : mem c "xyz" = true -> Ascii.eqb " " c = false.
Proof.
  intros H. destruct (Ascii.eqb_spec " " c) as [<-|]; [discriminate H|reflexivity].
Qed.

Lemma decimal_not_slash (c : ascii) : is_decimal c = true -> Ascii.eqb "/" c = false.
Proof.
  intros H. destruct (Ascii.eqb_spec "/" c) as [<-|]; [discriminate H|reflexivity].
Qed.

Lemma decimals_no_slash (o : string) :
  all_chars is_decimal o = true -> contains "/" o = false.
Proof.
  intros H. rewrite contains_char. apply negb_false_iff.
  revert H. apply all_chars_impl. intros c Hc. now rewrite decimal_not_slash.
Qed.

Lemma decimal_isdigit (c : ascii) : is_decimal c = true -> char_isdigit c = true.
Proof. unfold is_decimal, char_isdigit. intros H. now rewrite H. Qed.

Lemma decimals_no_space (o : string) :
  all_chars is_decimal o = true -> contains " " o = false.
Proof.
  intros H. rewrite contains_char. apply negb_false_iff.
  revert H. apply all_chars_impl. intros c Hc. now rewrite decimal_not_space.
Qed.

End ReFacts.

(** ** ExpressionShortcuts.convert_shortcut *)

Module ShortcutFacts.
Import PyStr PyStrFacts Re ReFacts ExpressionShortcuts.

(** The slash pattern on [d<order>/d<var><order>]: the three groups. *)
Lemma slash_pattern_matches (o1 : string) (v : ascii) (o2 : string) :
  all_chars is_decimal o1 = true ->
  mem v "xyz" = true ->
  all_chars is_decimal o2 = true ->
  re_match slash_pattern ("d" ++ o1 ++ "/d" ++ String v o2) =
  Some [o1; String v EmptyString; o2].
Proof.
  intros H1 Hv H2. unfold re_match, slash_pattern.
  change ("d" ++ o1 ++ "/d" ++ String v o2)
    with (String "d" (o1 ++ String "/" (String "d" (String v o2)))).
  rewrite match_here_One. change (atom_ok (Lit "d") "d") with true. cbv iota.
  rewrite match_here_Star.
  rewrite (star_run Digit _ o1 _ EmptyString [String v EmptyString; o2] H1).
  - simpl. now rewrite append_empty_r.
  - rewrite star_stop by reflexivity.
    rewrite !match_here_One.
    change (atom_ok (Lit "/") "/") with true.
    change (atom_ok (Lit "d") "d") with true. cbv iota.
    change (atom_ok (OneOf "xyz") v) with (mem v "xyz"). rewrite Hv.
    rewrite match_here_Star, (star_to_end Digit o2 H2). reflexivity.
Qed.

Lemma slash_form_has_slash (o1 : string) (v : ascii) (o2 : string) :
  contains "/" ("d" ++ o1 ++ "/d" ++ String v o2) = true.
Proof.
  apply (contains_app_r "/" "d" (o1 ++ "/" ++ String "d" (String v o2))).
  apply contains_middle.
Qed.

Lemma slash_form_no_space (o1 : string) (v : ascii) (o2 : string) :
  all_chars is_decimal o1 = true ->
  mem v "xyz" = true ->
  all_chars is_decimal o2 = true ->
  contains " " ("d" ++ o1 ++ "/d" ++ String v o2) = false.
Proof.
  intros H1 Hv H2. rewrite contains_char. apply negb_false_iff.
  change ("d" ++ o1 ++ "/d" ++ String v o2)
    with (String "d" (o1 ++ String "/" (String "d" (String v o2)))).
  pose proof (decimals_no_space o1 H1) as N1.
  pose proof (decimals_no_space o2 H2) as N2.
  rewrite contains_char in N1, N2. apply negb_false_iff in N1, N2.
  simpl. rewrite all_chars_app. simpl.
  rewrite N1, N2, (xyz_not_space v Hv). reflexivity.
Qed.

Lemma str_or_empty_test (a b : string) :
  str_or a b = if String.eqb a EmptyString then b else a.
Proof. now destruct a. Qed.

(** C1. An input [d<order>/d<var><order> <function_part>], with decimal
    orders (possibly absent) and [var] one of x, y, z, is turned into
    [\frac{d^<order>}{d<var>^<order>} <function_part>]; the order shown
    is the one written after the first [d], or 1 when none is written
    there.  So [d/dx x^2] and [d2/dx2 x^3] give the fractions of order 1
    and 2. *)
Theorem convert_shortcut_slash_derivative :
  (forall (o1 : string) (v : ascii) (o2 function_part : string),
      all_chars is_decimal o1 = true ->
      mem v "xyz" = true ->
      all_chars is_decimal o2 = true ->
      convert_shortcut
        (("d" ++ o1 ++ "/d" ++ String v o2) ++ " " ++ function_part) =
      OK ("\frac{d^" ++ (if String.eqb o1 EmptyString then "1" else o1)
            ++ "}{d" ++ String v EmptyString ++ "^"
            ++ (if String.eqb o1 EmptyString then "1" else o1)
            ++ "} " ++ function_part)) /\
  convert_shortcut "d/dx x^2" = OK "\frac{d^1}{dx^1} x^2" /\
  convert_shortcut "d2/dx2 x^3" = OK "\frac{d^2}{dx^2} x^3".
Proof.
  split; [|split; reflexivity].
  intros o1 v o2 function_part H1 Hv H2. unfold convert_shortcut.
  assert (G : derivative_guard
                (("d" ++ o1 ++ "/d" ++ String v o2) ++ " " ++ function_part) = true).
  { unfold derivative_guard.
    rewrite (contains_app_l _ _ _ (slash_form_has_slash o1 v o2)).
    reflexivity. }
  rewrite G.
  rewrite (split_space_1_at_first _ _ (slash_form_no_space o1 v o2 H1 Hv H2)).
  simpl List.length. simpl Nat.eqb. cbv iota.
  unfold derivative_block, unpack2, bind.
  rewrite slash_form_has_slash, (slash_pattern_matches o1 v o2 H1 Hv H2).
  rewrite <- (str_or_empty_test o1 "1").
  reflexivity.
Qed.

(** A written order: the third derivative with respect to y. *)
Lemma convert_shortcut_slash_derivative_witness :
  all_chars is_decimal "3" = true /\ mem "y" "xyz" = true /\
  convert_shortcut "d3/dy3 sin(y)" = OK "\frac{d^3}{dy^3} sin(y)".
Proof.
  split; [reflexivity|]. split; [reflexivity|].
  apply (proj1 convert_shortcut_slash_derivative "3" "y"%char "3" "sin(y)");
    reflexivity.
Defined.

(** The slash pattern rejects a variable outside x, y, z. *)
Lemma slash_pattern_other_variable (o1 : string) (v : ascii) (tail : string) :
  all_chars is_decimal o1 = true ->
  mem v "xyz" = false ->
  re_match slash_pattern ("d" ++ o1 ++ "/d" ++ String v tail) = None.
Proof.
  intros H1 Hv. unfold re_match, slash_pattern.
  change ("d" ++ o1 ++ "/d" ++ String v tail)
    with (String "d" (o1 ++ String "/" (String "d" (String v tail)))).
  rewrite match_here_One. change (atom_ok (Lit "d") "d") with true. cbv iota.
  rewrite match_here_Star, (star_run_fails Digit _ o1 _ H1); [reflexivity| |].
  - intros c s Hc. rewrite match_here_One.
    destruct (atom_ok (Lit "/") c) eqn:E; [|reflexivity].
    apply Ascii.eqb_eq in E. subst c. discriminate Hc.
  - rewrite star_stop by reflexivity. rewrite !match_here_One.
    change (atom_ok (Lit "/") "/") with true.
    change (atom_ok (Lit "d") "d") with true. cbv iota.
    change (atom_ok (OneOf "xyz") v) with (mem v "xyz"). now rewrite Hv.
Qed.

(** The pattern without slash rejects a variable outside x, y, z. *)
Lemma plain_pattern_other_variable (o : string) (v : ascii) (tail : string) :
  all_chars is_decimal o = true ->
  is_decimal v = false ->
  mem v "xyz" = false ->
  re_match plain_pattern ("d" ++ o ++ String v tail) = None.
Proof.
  intros Ho Hd Hv. unfold re_match, plain_pattern.
  change ("d" ++ o ++ String v tail) with (String "d" (o ++ String v tail)).
  rewrite match_here_One. change (atom_ok (Lit "d") "d") with true. cbv iota.
  rewrite match_here_Star, (star_run_fails Digit _ o _ Ho); [reflexivity| |].
  - intros c s Hc. rewrite match_here_One.
    change (atom_ok (OneOf "xyz") c) with (mem c "xyz").
    destruct (mem c "xyz") eqn:E; [|reflexivity].
    unfold mem in E. repeat rewrite orb_false_r in E.
    repeat (apply orb_true_iff in E; destruct E as [E|E]);
      apply Ascii.eqb_eq in E; subst c; discriminate Hc.
  - rewrite (star_stop Digit _ v tail Hd), match_here_One.
    change (atom_ok (OneOf "xyz") v) with (mem v "xyz"). now rewrite Hv.
Qed.

(** Leaving the derivative notation unmatched returns the text. *)
Lemma unmatched_returns_text (text derivative_part function_part : string) :
  derivative_guard text = true ->
  split_space_1 text = [derivative_part; function_part] ->
  re_match (derivative_pattern derivative_part) derivative_part = None ->
  convert_shortcut text = OK text.
Proof.
  intros G Hsplit Hre. unfold convert_shortcut. rewrite G, Hsplit.
  unfold derivative_block, unpack2, bind, derivative_pattern in *.
  destruct (contains "/" derivative_part); now rewrite Hre.
Qed.

Lemma contains_char_app (c : ascii) (a b : string) :
  contains (String c EmptyString) (a ++ b) =
  contains (String c EmptyString) a || contains (String c EmptyString) b.
Proof.
  rewrite !contains_char, all_chars_app. apply negb_andb.
Qed.

Lemma contains_char_cons (c d : ascii) (s : string) :
  contains (String c EmptyString) (String d s) =
  Ascii.eqb c d || contains (String c EmptyString) s.
Proof. simpl. now rewrite andb_true_r. Qed.

(** C10. The derivative notation knows the variables x, y and z only.  An
    input that opens it (the guard holds, there are two parts) and whose
    first part the pattern does not match is returned as it is, without
    the table being applied; so it is for [d<order>/d<var>...] and for
    [d<order><var>...] with any other variable, as in [d/dt x^2]. *)
Theorem convert_shortcut_other_variable_unchanged :
  (forall text derivative_part function_part,
      derivative_guard text = true ->
      split_space_1 text = [derivative_part; function_part] ->
      re_match (derivative_pattern derivative_part) derivative_part = None ->
      convert_shortcut text = OK text) /\
  (forall o1 v tail function_part,
      all_chars is_decimal o1 = true ->
      mem v "xyz" = false ->
      contains " " (String v tail) = false ->
      convert_shortcut (("d" ++ o1 ++ "/d" ++ String v tail) ++ " " ++ function_part) =
      OK (("d" ++ o1 ++ "/d" ++ String v tail) ++ " " ++ function_part)) /\
  (forall o v tail function_part,
      all_chars is_decimal o = true ->
      is_decimal v = false ->
      mem v "xyz" = false ->
      contains " " (String v tail) = false ->
      contains "/" (String v tail) = false ->
      o <> EmptyString \/ contains "/" function_part = true ->
      convert_shortcut (("d" ++ o ++ String v tail) ++ " " ++ function_part) =
      OK (("d" ++ o ++ String v tail) ++ " " ++ function_part)).
Proof.
  split; [exact unmatched_returns_text|split].
  - intros o1 v tail fp H1 Hv Hsp.
    assert (Hslash : contains "/" ("d" ++ o1 ++ "/d" ++ String v tail) = true).
    { apply (contains_app_r "/" "d" (o1 ++ "/" ++ String "d" (String v tail))).
      apply contains_middle. }
    apply (unmatched_returns_text _ ("d" ++ o1 ++ "/d" ++ String v tail) fp).
    + unfold derivative_guard. now rewrite (contains_app_l _ _ _ Hslash).
    + apply split_space_1_at_first.
      change ("d" ++ o1 ++ "/d" ++ String v tail)
        with (String "d" (o1 ++ String "/" (String "d" (String v tail)))).
      rewrite contains_char_cons, contains_char_app, !contains_char_cons.
      rewrite <- (contains_char_cons " " v tail), Hsp.
      now rewrite (decimals_no_space o1 H1).
    + unfold derivative_pattern. rewrite Hslash.
      now apply slash_pattern_other_variable.
  - intros o v tail fp Ho Hd Hv Hsp Hsl Hguard.
    assert (Hnoslash : contains "/" ("d" ++ o ++ String v tail) = false).
    { change ("d" ++ o ++ String v tail) with (String "d" (o ++ String v tail)).
      rewrite contains_char_cons, contains_char_app, Hsl.
      now rewrite (decimals_no_slash o Ho). }
    apply (unmatched_returns_text _ ("d" ++ o ++ String v tail) fp).
    + unfold derivative_guard. destruct Hguard as [Hne|Hfp].
      * destruct o as [|c o]; [contradiction|].
        simpl in Ho. apply andb_true_iff in Ho. destruct Ho as [Hc _].
        change (isdigit (slice_1_2 (("d" ++ String c o ++ String v tail) ++ " " ++ fp)))
          with (char_isdigit c && true).
        rewrite (decimal_isdigit c Hc). now rewrite orb_true_r.
      * rewrite (contains_app_r "/" ("d" ++ o ++ String v tail) (" " ++ fp)).
        -- reflexivity.
        -- now apply (contains_app_r "/" " " fp).
    + apply split_space_1_at_first.
      change ("d" ++ o ++ String v tail) with (String "d" (o ++ String v tail)).
      rewrite contains_char_cons, contains_char_app, Hsp.
      now rewrite (decimals_no_space o Ho).
    + unfold derivative_pattern. rewrite Hnoslash.
      now apply plain_pattern_other_variable.
Qed.

Lemma convert_shortcut_other_variable_unchanged_witness :
  all_chars is_decimal "" = true /\
  mem "t" "xyz" = false /\
  contains " " "t" = false /\
  convert_shortcut "d/dt x^2" = OK "d/dt x^2".
Proof.
  repeat (split; [reflexivity|]).
  apply (proj1 (proj2 convert_shortcut_other_variable_unchanged) "" "t"%char "" "x^2");
    reflexivity.
Defined.

(** The loop over the table leaves a text without token as it is. *)
Lemma fold_apply_shortcut_id (table : dict) (text : string) :
  existsb (fun item => contains (fst item) text && negb (contains "#" (snd item)))
          table = false ->
  fold_left apply_shortcut table text = text.
Proof.
  induction table as [|[shortcut latex] table IH]; simpl; intros H; [reflexivity|].
  apply orb_false_iff in H. destruct H as [Hitem Htable].
  rewrite Hitem. exact (IH Htable).
Qed.

Lemma derivative_block_returns (result a b : string) :
  exists out, derivative_block result [a; b] = OK out.
Proof.
  unfold derivative_block, unpack2, bind. eexists. reflexivity.
Qed.

(** C9. [convert_shortcut] returns a string on every input and raises
    nothing; a text in which nothing is recognized (neither the derivative
    notation nor a key of the table) comes back as it is, and so does the
    empty text. *)
Theorem convert_shortcut_never_raises :
  (forall text, exists out, convert_shortcut text = OK out) /\
  (forall text, recognized text = false -> convert_shortcut text = OK text) /\
  convert_shortcut "" = OK "".
Proof.
  split; [|split]; [| |reflexivity].
  - intros text. unfold convert_shortcut.
    destruct (derivative_guard text); [|eexists; reflexivity].
    destruct (split_space_1_cases text) as [[a ->]|[a [b ->]]].
    + eexists; reflexivity.
    + apply derivative_block_returns.
  - intros text H. unfold recognized in H.
    apply orb_false_iff in H. destruct H as [Hd Ht].
    unfold convert_shortcut, derivative_recognized in *.
    destruct (derivative_guard text); simpl in Hd.
    + destruct (split_space_1_cases text) as [[a E]|[a [b E]]];
        rewrite E in *.
      * unfold other_shortcuts. now rewrite fold_apply_shortcut_id.
      * unfold derivative_pattern in Hd.
        change (List.length [a; b] =? 2)%nat with true. cbv iota.
        unfold derivative_block, unpack2, bind.
        destruct (contains "/" a);
          destruct (re_match _ a); (discriminate Hd || reflexivity).
    + unfold other_shortcuts. now rewrite fold_apply_shortcut_id.
Qed.

Lemma convert_shortcut_never_raises_witness :
  recognized "2 + 2" = false /\ convert_shortcut "2 + 2" = OK "2 + 2".
Proof.
  split; [reflexivity|].
  apply (proj1 (proj2 convert_shortcut_never_raises)). reflexivity.
Defined.

(** C2, as the code behaves.  With a first part that the pattern does not
    match, the text is returned before the table is consulted, although
    the table would rewrite it; without the space the same key is
    replaced. *)
Theorem convert_shortcut_unmatched_skips_table :
  convert_shortcut "d/dt x^2" = OK "d/dt x^2" /\
  other_shortcuts "d/dt x^2" = "\frac{d}{dt} x^2" /\
  convert_shortcut "d/dt(x^2)" = OK "\frac{d}{dt}(x^2)" /\
  convert_shortcut "delta x / 2" = OK "delta x / 2" /\
  other_shortcuts "delta x / 2" = "\delta x / 2" /\
  convert_shortcut "delta x" = OK "\delta x".
Proof. repeat split; reflexivity. Qed.


Lemma token_check_table : forallb token_check get_all_shortcuts = true.
Proof. vm_compute. reflexivity. Qed.

(** C3, amended.  For a key [t] of the merged table with a replacement [r]
    free of the placeholder marker: [t] occurs in [convert(t)] only when
    [t] is a strict substring of [r]; and when it is not one,
    [convert(t)] is [r], except for [integral], [lg], [log10] and [log2],
    where it is [r] with one more backslash in front. *)
Theorem convert_shortcut_on_token (t r : string) :
  In (t, r) get_all_shortcuts ->
  contains "#" r = false ->
  exists out,
    convert_shortcut t = OK out /\
    (contains t out = true -> strict_substring t r = true) /\
    (strict_substring t r = false ->
     out = if existsb (String.eqb t) twice_replaced then "\" ++ r else r).
Proof.
  intros Hin Hhash.
  pose proof (proj1 (forallb_forall _ _) token_check_table _ Hin) as H.
  unfold token_check in H. rewrite Hhash in H. simpl orb in H.
  destruct (convert_shortcut t) as [out|e]; [|discriminate H].
  exists out. split; [reflexivity|].
  apply andb_true_iff in H. destruct H as [Hocc Hval]. split.
  - intros Hc. rewrite Hc in Hocc. exact Hocc.
  - intros Hs. rewrite Hs in Hval. now apply String.eqb_eq in Hval.
Qed.

Lemma convert_shortcut_on_token_witness :
  In ("root", "\sqrt") get_all_shortcuts /\
  contains "#" "\sqrt" = false /\
  exists out,
    convert_shortcut "root" = OK out /\
    (contains "root" out = true -> strict_substring "root" "\sqrt" = true) /\
    (strict_substring "root" "\sqrt" = false ->
     out = if existsb (String.eqb "root") twice_replaced
           then "\" ++ "\sqrt" else "\sqrt").
Proof.
  assert (Hin : In ("root", "\sqrt") get_all_shortcuts).
  { unfold get_all_shortcuts. simpl. tauto. }
  split; [exact Hin|]. split; [reflexivity|].
  apply (convert_shortcut_on_token "root" "\sqrt" Hin). reflexivity.
Defined.

(** C3 as it is written fails on [lg]: the replacement [\log] of [lg]
    holds the later key [log], which is replaced in turn. *)
Lemma convert_shortcut_on_token_counterexample :
  ~ (forall t r,
       In (t, r) get_all_shortcuts ->
       contains "#" r = false ->
       exists out,
         convert_shortcut t = OK out /\
         (contains t out = true -> strict_substring t r = true) /\
         (strict_substring t r = false -> out = r)).
Proof.
  intros H. destruct (H "lg" "\log") as [out [Hout [_ Hval]]].
  - unfold get_all_shortcuts. simpl. tauto.
  - reflexivity.
  - vm_compute in Hout. injection Hout as <-.
    specialize (Hval eq_refl). discriminate Hval.
Qed.

Example convert_shortcut_integral : convert_shortcut "integral" = OK "\\int".
Proof. reflexivity. Qed.

Example convert_shortcut_lg : convert_shortcut "lg" = OK "\\log".
Proof. reflexivity. Qed.

End ShortcutFacts.

(** ** SympyToMatlab.sympy_to_matlab *)

Module MatlabFacts.
Import PyStr PyStrFacts SympyToMatlab.

(** *** The substitution of the generic case *)

Lemma replace_power_skip (c : ascii) (s : string) :
  replace_from "**" "^" 1 (String c s) = replace_from "**" "^" 0 s.
Proof. reflexivity. Qed.

Lemma string_pair_ind (P : string -> Prop) :
  P EmptyString ->
  (forall c, P (String c EmptyString)) ->
  (forall c d s, P s -> P (String d s) -> P (String c (String d s))) ->
  forall s, P s.
Proof.
  intros H0 H1 H2 s.
  assert (H : P s /\ forall c, P (String c s)).
  { induction s as [|d s [IHs IHc]]; split; auto. }
  exact (proj1 H).
Qed.

Lemma power_to_caret_pair (c d : ascii) (s : string) :
  power_to_caret (String c (String d s)) =
  if Ascii.eqb c "*" && Ascii.eqb d "*"
  then String "^" (power_to_caret s)
  else String c (power_to_caret (String d s)).
Proof. reflexivity. Qed.

Lemma replace_power_to_caret (s : string) :
  replace "**" "^" s = power_to_caret s.
Proof.
  unfold replace. induction s as [|c|c d s IH1 IH2] using string_pair_ind;
    [reflexivity| |].
  - simpl. now rewrite andb_false_r.
  - rewrite power_to_caret_pair, <- IH1, <- IH2.
    change (replace_from "**" "^" 0 (String c (String d s)))
      with (if Ascii.eqb "*" c && (Ascii.eqb "*" d && true)
            then "^" ++ replace_from "**" "^" 1 (String d s)
            else String c (replace_from "**" "^" 0 (String d s))).
    rewrite replace_power_skip, andb_true_r.
    now rewrite (Ascii.eqb_sym "*" c), (Ascii.eqb_sym "*" d).
Qed.

Lemma power_to_caret_head (c : ascii) (s : string) :
  Ascii.eqb c "*" = false ->
  power_to_caret (String c s) = String c (power_to_caret s).
Proof.
  intros H. destruct s as [|d s]; [reflexivity|].
  rewrite power_to_caret_pair. now rewrite H.
Qed.

Lemma startswith_power (c d : ascii) (s : string) :
  startswith "**" (String c (String d s)) = Ascii.eqb "*" c && Ascii.eqb "*" d.
Proof. simpl. now rewrite andb_true_r. Qed.

(** Where the result begins with a star, no second star follows it. *)
Lemma power_to_caret_no_power_head (s : string) :
  startswith "**" (power_to_caret s) = false.
Proof.
  induction s as [|c|c d s IH1 IH2] using string_pair_ind.
  - reflexivity.
  - simpl. now rewrite andb_false_r.
  - rewrite power_to_caret_pair.
    destruct (Ascii.eqb c "*") eqn:Ec; simpl andb.
    + destruct (Ascii.eqb d "*") eqn:Ed.
      * reflexivity.
      * rewrite (power_to_caret_head d s Ed), startswith_power.
        rewrite (Ascii.eqb_sym "*" d), Ed. apply andb_false_r.
    + destruct (power_to_caret (String d s)) as [|e r];
        [simpl; apply andb_false_r|].
      rewrite startswith_power. now rewrite (Ascii.eqb_sym "*" c), Ec.
Qed.

Lemma power_to_caret_no_power (s : string) :
  contains "**" (power_to_caret s) = false.
Proof.
  induction s as [|c|c d s IH1 IH2] using string_pair_ind.
  - reflexivity.
  - simpl. now rewrite andb_false_r.
  - pose proof (power_to_caret_no_power_head (String c (String d s))) as Hh.
    rewrite power_to_caret_pair in *.
    destruct (Ascii.eqb c "*" && Ascii.eqb d "*").
    + simpl. exact IH1.
    + change (contains "**" (String c (power_to_caret (String d s))))
        with (startswith "**" (String c (power_to_caret (String d s)))
              || contains "**" (power_to_caret (String d s))).
      now rewrite Hh, IH2.
Qed.

Lemma power_to_caret_without_power (s : string) :
  contains "**" s = false -> power_to_caret s = s.
Proof.
  induction s as [|c|c d s IH1 IH2] using string_pair_ind; intros H;
    [reflexivity|reflexivity|].
  apply contains_cons_false in H. destruct H as [Hh Ht].
  rewrite startswith_power in Hh.
  rewrite power_to_caret_pair.
  rewrite (Ascii.eqb_sym c "*"), (Ascii.eqb_sym d "*"), Hh.
  f_equal. exact (IH2 Ht).
Qed.

(** The substitution touches stars and carets only. *)
Lemma power_to_caret_other_chars (s : string) :
  other_chars (power_to_caret s) = other_chars s.
Proof.
  induction s as [|c|c d s IH1 IH2] using string_pair_ind;
    [reflexivity|reflexivity|].
  rewrite power_to_caret_pair.
  destruct (Ascii.eqb c "*") eqn:Ec; simpl andb.
  - destruct (Ascii.eqb d "*") eqn:Ed.
    + cbn [other_chars]. rewrite Ec, Ed. simpl orb.
      change (Ascii.eqb "^" "*" || Ascii.eqb "^" "^") with true. cbv iota.
      exact IH1.
    + cbn [other_chars]. fold (other_chars (power_to_caret (String d s))).
      rewrite IH2, Ec. reflexivity.
  - cbn [other_chars]. fold (other_chars (power_to_caret (String d s))).
    rewrite IH2, Ec. reflexivity.
Qed.

(** *** The conversion *)

Lemma mapM_cons {A B : Type} (f : A -> Exc B) (x : A) (xs : list A) :
  mapM f (x :: xs) = bind (f x) (fun y => bind (mapM f xs) (fun ys => OK (y :: ys))).
Proof. reflexivity. Qed.

Lemma mapM_Forall2 {A B : Type} (f : A -> Exc B) (xs : list A) (ys : list B) :
  mapM f xs = OK ys <-> Forall2 (fun x y => f x = OK y) xs ys.
Proof.
  revert ys. induction xs as [|x xs IH]; intros ys.
  - split.
    + intros H. injection H as <-. constructor.
    + intros H. inversion H. reflexivity.
  - rewrite mapM_cons. split.
    + destruct (f x) as [y|e] eqn:Ex; [|discriminate].
      destruct (mapM f xs) as [ys'|e] eqn:Exs; [|discriminate].
      intros H. injection H as <-. constructor; [exact Ex|].
      now apply IH.
    + intros H. inversion H as [|x' y xs' ys' Hx Hxs]; subst.
      apply IH in Hxs. now rewrite Hx, Hxs.
Qed.


Section Converter.

Variable sstr : Expr -> string.

Lemma sympy_to_matlab_Obj (e : Expr) :
  sympy_to_matlab sstr (Obj e) = sympy_to_matlab_expr sstr e.
Proof. reflexivity. Qed.

(** The text of the integrand in the output of [_handle_integral]: the
    conversion of a nested integral, the plain [str] form of anything
    else. *)
Lemma integral_format (function : Expr) (var_info : list Expr)
    (others : list (list Expr)) (integrand_str : string) :
  match function with
  | Integral _ _ => sympy_to_matlab_expr sstr function
  | _ => OK (str sstr function)
  end = OK integrand_str ->
  sympy_to_matlab sstr (Obj (Integral function (var_info :: others))) =
  match var_info with
  | [var] => OK ("int(" ++ integrand_str ++ ", '" ++ str sstr var ++ "')")
  | [var; lower; upper] =>
      OK ("int(" ++ integrand_str ++ ", '" ++ str sstr var ++ "', "
            ++ str sstr lower ++ ", " ++ str sstr upper ++ ")")
  | _ => Raise (UnpackError 3 (List.length var_info))
  end.
Proof.
  intros H. rewrite sympy_to_matlab_Obj. simpl sympy_to_matlab_expr.
  unfold _handle_integral, sympy_to_str. rewrite H. simpl bind.
  destruct var_info as [|v1 [|v2 [|v3 [|v4 t]]]]; reflexivity.
Qed.

(** C4, as the code behaves.  The integrand of an integral is printed by
    [str] and keeps its [**]; the derivative and the generic case turn
    the same expression into MATLAB's [^]. *)
Theorem sympy_to_matlab_integral_keeps_power :
  sympy_to_matlab sstr (Obj (Integral (Generic "x**2") [[Generic "x"]])) =
    OK "int(x**2, 'x')" /\
  sympy_to_matlab sstr (Obj (Integral (Generic "x**2")
                         [[Generic "x"; Generic "0"; Generic "1"]])) =
    OK "int(x**2, 'x', 0, 1)" /\
  sympy_to_matlab sstr (Obj (Derivative (Generic "x**2") [Var (Generic "x")] 1)) =
    OK "diff(x^2, 'x')" /\
  sympy_to_matlab sstr (Obj (Generic "x**2")) = OK "x^2".
Proof. repeat split; reflexivity. Qed.

(** C5. A derivative is printed as [diff(<func>, '<var>')] when the order
    is 1 and as [diff(<func>, '<var>', <order>)] otherwise; [<func>] is
    the conversion of the inner expression, and the order is that of the
    pair [(var, order)] or else [derivative_count]. *)
Theorem sympy_to_matlab_derivative :
  (forall (expr : Expr) (var_info : var_slot Expr)
          (others : list (var_slot Expr)) (derivative_count : Z)
          (func_str : string),
      sympy_to_matlab_expr sstr expr = OK func_str ->
      sympy_to_matlab sstr (Obj (Derivative expr (var_info :: others) derivative_count)) =
      let (var, order) :=
        match var_info with
        | Var var => (var, derivative_count)
        | VarOrder var order => (var, order)
        end in
      if (order =? 1)%Z
      then OK ("diff(" ++ func_str ++ ", '" ++ str sstr var ++ "')")
      else OK ("diff(" ++ func_str ++ ", '" ++ str sstr var ++ "', "
                 ++ str_int order ++ ")")) /\
  sympy_to_matlab sstr (Obj (Derivative (Function "sin" [Generic "x"])
                           [Var (Generic "x")] 1)) =
    OK "diff(sin(x), 'x')" /\
  sympy_to_matlab sstr (Obj (Derivative (Function "sin" [Generic "x"])
                           [Var (Generic "x"); Var (Generic "x");
                            Var (Generic "x")] 3)) =
    OK "diff(sin(x), 'x', 3)".
Proof.
  split; [|split; reflexivity].
  intros expr var_info others derivative_count func_str H.
  rewrite sympy_to_matlab_Obj. simpl sympy_to_matlab_expr.
  unfold _handle_derivative. simpl index0. simpl bind.
  destruct var_info as [var|var order]; rewrite H; simpl bind;
    now destruct (_ =? 1)%Z.
Qed.


(** C7. Any other expression is printed by [str] with every [**] turned
    into [^] and nothing else changed: no [**] is left, a text without
    [**] stays as it is, and the characters other than stars and carets
    are kept in their order, so a single [*] or a [/] is not touched. *)
Theorem sympy_to_matlab_generic :
  (forall text, sympy_to_matlab sstr (Obj (Generic text)) = OK (power_to_caret text)) /\
  (forall text, contains "**" (power_to_caret text) = false) /\
  (forall text, contains "**" text = false -> power_to_caret text = text) /\
  (forall text, other_chars (power_to_caret text) = other_chars text) /\
  sympy_to_matlab sstr (Obj (Generic "x**2 + 1")) = OK "x^2 + 1" /\
  sympy_to_matlab sstr (Obj (Generic "2*x/y")) = OK "2*x/y".
Proof.
  split; [|split; [|split; [|split; [|split; reflexivity]]]].
  - intros text. rewrite sympy_to_matlab_Obj.
    change (sympy_to_matlab_expr sstr (Generic text))
      with (OK (replace "**" "^" text)).
    now rewrite replace_power_to_caret.
  - apply power_to_caret_no_power.
  - apply power_to_caret_without_power.
  - apply power_to_caret_other_chars.
Qed.

(** C8. An empty list raises the [ValueError] with the message
    [Empty expression list]; on a list with elements the result is the
    conversion of the first element, whatever follows it, even an element
    that would raise on its own. *)
Theorem sympy_to_matlab_list :
  sympy_to_matlab sstr (PyList []) = Raise (ValueError "Empty expression list") /\
  (forall first others,
      sympy_to_matlab sstr (PyList (first :: others)) =
      sympy_to_matlab_expr sstr first) /\
  sympy_to_matlab sstr (PyList [Generic "x**2 + 1"; Generic "y"; Generic "z"]) =
    OK "x^2 + 1" /\
  sympy_to_matlab sstr
    (PyList [Function "arcsin" [Generic "x"]; Integral (Generic "y") []]) =
    OK "asin(x)".
Proof. repeat split; reflexivity. Qed.

End Converter.

Lemma sympy_to_matlab_derivative_witness :
  sympy_to_matlab_expr no_printer (Function "sin" [Generic "x"]) = OK "sin(x)" /\
  sympy_to_matlab no_printer
    (Obj (Derivative (Function "sin" [Generic "x"])
                     [VarOrder (Generic "x") 3] 1)) =
  OK "diff(sin(x), 'x', 3)".
Proof.
  split; [reflexivity|].
  apply (proj1 (sympy_to_matlab_derivative no_printer)
           (Function "sin" [Generic "x"]) (VarOrder (Generic "x") 3) [] 1%Z
           "sin(x)").
  reflexivity.
Defined.


Lemma sympy_to_matlab_generic_witness :
  contains "**" "2*x/y" = false /\ power_to_caret "2*x/y" = "2*x/y".
Proof.
  split; [reflexivity|].
  apply (proj1 (proj2 (proj2 (sympy_to_matlab_generic no_printer)))).
  reflexivity.
Defined.

End MatlabFacts.

(** * Further properties *)

(** ** [str.replace] and [str.split] *)

Module PyStrMore.
Import PyStr PyStrFacts.

(** The characters still to be dropped are dropped. *)
Lemma replace_from_skip (old new o rest : string) :
  replace_from old new (String.length o) (o ++ rest) = replace_from old new 0 rest.
Proof.
  induction o as [|c o IH]; [reflexivity|]. exact IH.
Qed.

(** An occurrence at the front is replaced and the search goes on behind
    it. *)
Lemma replace_from_front (old new rest : string) :
  old <> EmptyString ->
  replace_from old new 0 (old ++ rest) = new ++ replace_from old new 0 rest.
Proof.
  intros Hold. destruct old as [|a old]; [contradiction|].
  change (String a old ++ rest) with (String a (old ++ rest)).
  cbn [replace_from].
  change (String a (old ++ rest)) with (String a old ++ rest).
  rewrite startswith_refl_app.
  change (String.length (String a old) - 1) with (String.length old - 0).
  now rewrite Nat.sub_0_r, replace_from_skip.
Qed.

Lemma replace_from_next (old new : string) (c : ascii) (s : string) :
  startswith old (String c s) = false ->
  replace_from old new 0 (String c s) = String c (replace_from old new 0 s).
Proof. intros H. cbn [replace_from]. now rewrite H. Qed.

Lemma length_append (a b : string) :
  String.length (a ++ b) = String.length a + String.length b.
Proof. induction a as [|c a IH]; simpl; [reflexivity|now rewrite IH]. Qed.

(** Induction on a text along the search of [replace]: either the pattern
    is at the front and the rest is what follows it, or one character is
    passed. *)
Lemma replace_ind (old : string) (P : string -> Prop) :
  old <> EmptyString ->
  P EmptyString ->
  (forall rest, P rest -> P (old ++ rest)) ->
  (forall c s, startswith old (String c s) = false -> P s -> P (String c s)) ->
  forall s, P s.
Proof.
  intros Hold H0 Hfront Hnext s.
  assert (H : forall n s, String.length s <= n -> P s).
  { clear s. induction n as [|n IH]; intros s Hlen.
    - destruct s; [exact H0|simpl in Hlen; lia].
    - destruct s as [|c s]; [exact H0|].
      destruct (startswith old (String c s)) eqn:E.
      + apply startswith_iff in E. destruct E as [rest E]. rewrite E.
        apply Hfront, IH.
        assert (L : String.length (String c s) = String.length (old ++ rest))
          by now rewrite E.
        rewrite length_append in L. simpl in L, Hlen.
        destruct old; [contradiction|simpl in L; lia].
      + apply Hnext; [exact E|]. apply IH. simpl in Hlen. lia. }
  exact (H (String.length s) s (le_n _)).
Qed.

(** Characters of a kind: [replace] keeps a text within the kind when the
    new text is of the kind. *)
Lemma replace_from_all_chars (p : ascii -> bool) (old new : string)
    (skip : nat) (s : string) :
  all_chars p new = true ->
  all_chars p s = true ->
  all_chars p (replace_from old new skip s) = true.
Proof.
  intros Hnew. revert skip. induction s as [|c s IH]; intros skip Hs;
    [reflexivity|].
  simpl in Hs. apply andb_true_iff in Hs. destruct Hs as [Hc Hs].
  cbn [replace_from]. destruct skip as [|k]; [|now apply IH].
  destruct (startswith old (String c s)).
  - rewrite all_chars_app, Hnew. now apply IH.
  - simpl. rewrite Hc. now apply IH.
Qed.

Lemma count_char_app (c : ascii) (a b : string) :
  count_char c (a ++ b) = count_char c a + count_char c b.
Proof.
  induction a as [|d a IH]; simpl; [reflexivity|]. rewrite IH. lia.
Qed.

(** Replacing a pattern free of [c] never lowers the number of [c]. *)
Lemma replace_count_le (c : ascii) (old new s : string) :
  old <> EmptyString ->
  count_char c old = 0 ->
  count_char c s <= count_char c (replace old new s).
Proof.
  intros Hold H0. unfold replace. destruct old as [|a old]; [contradiction|].
  pattern s. apply (replace_ind (String a old)); [exact Hold|reflexivity| |].
  - intros rest IH. rewrite replace_from_front by exact Hold.
    rewrite !count_char_app, H0. lia.
  - intros d t Hd IH. rewrite (replace_from_next _ _ _ _ Hd). simpl. lia.
Qed.

(** With an occurrence, it grows by at least the number of [c] in one
    copy of the new text. *)
Lemma replace_count_lt (c : ascii) (old new s : string) :
  old <> EmptyString ->
  count_char c old = 0 ->
  contains old s = true ->
  count_char c s + count_char c new <= count_char c (replace old new s).
Proof.
  intros Hold H0. pose proof (replace_count_le c old new) as Hle.
  unfold replace in *. destruct old as [|a old]; [contradiction|].
  pattern s. apply (replace_ind (String a old)); [exact Hold| | |].
  - intros Hc. discriminate Hc.
  - intros rest IH _. rewrite replace_from_front by exact Hold.
    rewrite !count_char_app, H0.
    specialize (Hle rest Hold H0). lia.
  - intros d t Hd IH Hc. rewrite (replace_from_next _ _ _ _ Hd).
    apply orb_true_iff in Hc. destruct Hc as [Hc|Hc];
      [rewrite Hd in Hc; discriminate Hc|].
    specialize (IH Hc). simpl. lia.
Qed.

(** The two parts of a split are the text around its first space. *)
Lemma split_space_1_two (s a b : string) :
  split_space_1 s = [a; b] ->
  s = a ++ " " ++ b /\ contains " " a = false.
Proof.
  revert a. induction s as [|c s IH]; intros a H; [discriminate H|].
  simpl in H. destruct (Ascii.eqb c " ") eqn:E.
  - injection H as <- <-. apply Ascii.eqb_eq in E. subst c. now split.
  - destruct (split_space_1_cases s) as [[x Hx]|[x [y Hxy]]].
    + rewrite Hx in H. discriminate H.
    + rewrite Hxy in H. injection H as <- <-.
      destruct (IH x Hxy) as [-> Hno]. split; [reflexivity|].
      simpl. now rewrite Hno, andb_true_r, Ascii.eqb_sym, E.
Qed.

End PyStrMore.

(** ** The matcher, read backwards *)

Module ReMore.
Import PyStr PyStrFacts Re ReFacts.

(** What a successful star took is a run of matching characters, and the
    continuation succeeded on what follows. *)
Lemma star_inv (a : atom) (k : string -> option (list string))
    (s taken : string) (gs : list string) :
  star a k s = Some (taken, gs) ->
  all_chars (atom_ok a) taken = true /\
  exists rest, s = taken ++ rest /\ k rest = Some gs.
Proof.
  revert taken. induction s as [|c s IH]; intros taken H.
  - simpl in H. destruct (k EmptyString) as [gs'|] eqn:E; [|discriminate H].
    injection H as <- <-. split; [reflexivity|]. now exists EmptyString.
  - cbn [star] in H.
    assert (Hstop :
      option_map (fun gs => (EmptyString, gs)) (k (String c s)) = Some (taken, gs) ->
      all_chars (atom_ok a) taken = true /\
      exists rest, String c s = taken ++ rest /\ k rest = Some gs).
    { intros Hs. destruct (k (String c s)) as [gs'|] eqn:E; [|discriminate Hs].
      injection Hs as <- <-. split; [reflexivity|]. now exists (String c s). }
    destruct (atom_ok a c) eqn:Ec; [|exact (Hstop H)].
    destruct (star a k s) as [[t gs']|] eqn:Es; [|exact (Hstop H)].
    injection H as <- <-. destruct (IH t eq_refl) as [Ht [rest [-> Hk]]].
    split; [simpl; now rewrite Ec, Ht|]. now exists rest.
Qed.




End ReMore.

(** ** More on ExpressionShortcuts.convert_shortcut *)

Module ShortcutMore.
Import PyStr PyStrFacts PyStrMore Re ReFacts ReMore ExpressionShortcuts.



(** What the slash pattern matched: the groups are a run of decimals, one
    of x, y, z, and a run of decimals, found in this order in the text. *)
Lemma slash_pattern_inv (s : string) (m : list string) :
  re_match slash_pattern s = Some m ->
  exists o1 v o2 rest,
    s = "d" ++ o1 ++ "/d" ++ String v (o2 ++ rest) /\
    all_chars is_decimal o1 = true /\ mem v "xyz" = true /\
    all_chars is_decimal o2 = true /\
    m = [o1; String v EmptyString; o2].
Proof.
  unfold re_match, slash_pattern. intros H.
  destruct s as [|c0 s]; [discriminate H|].
  rewrite match_here_One in H.
  destruct (atom_ok (Lit "d") c0) eqn:E0; [|discriminate H].
  apply Ascii.eqb_eq in E0. subst c0.
  rewrite match_here_Star in H.
  destruct (star Digit _ s) as [[o1 gs]|] eqn:Es; [|discriminate H].
  apply star_inv in Es. destruct Es as [H1 [r1 [-> Hk]]].
  destruct r1 as [|c1 r1]; [discriminate Hk|]. rewrite match_here_One in Hk.
  destruct (atom_ok (Lit "/") c1) eqn:E1; [|discriminate Hk].
  apply Ascii.eqb_eq in E1. subst c1.
  destruct r1 as [|c2 r1]; [discriminate Hk|]. rewrite match_here_One in Hk.
  destruct (atom_ok (Lit "d") c2) eqn:E2; [|discriminate Hk].
  apply Ascii.eqb_eq in E2. subst c2.
  destruct r1 as [|v r1]; [discriminate Hk|]. rewrite match_here_One in Hk.
  destruct (atom_ok (OneOf "xyz") v) eqn:Ev; [|discriminate Hk].
  rewrite match_here_Star in Hk.
  destruct (star Digit _ r1) as [[o2 gs2]|] eqn:Es2; [|discriminate Hk].
  apply star_inv in Es2. destruct Es2 as [H2 [r2 [-> Hk2]]].
  injection Hk2 as <-. simpl in Hk. injection Hk as <-. simpl in H.
  injection H as <-. exists o1, v, o2, r2. repeat split; assumption.
Qed.

Lemma plain_pattern_inv (s : string) (m : list string) :
  re_match plain_pattern s = Some m ->
  exists o v rest,
    s = "d" ++ o ++ String v rest /\
    all_chars is_decimal o = true /\ mem v "xyz" = true /\
    m = [o; String v EmptyString].
Proof.
  unfold re_match, plain_pattern. intros H.
  destruct s as [|c0 s]; [discriminate H|].
  rewrite match_here_One in H.
  destruct (atom_ok (Lit "d") c0) eqn:E0; [|discriminate H].
  apply Ascii.eqb_eq in E0. subst c0.
  rewrite match_here_Star in H.
  destruct (star Digit _ s) as [[o gs]|] eqn:Es; [|discriminate H].
  apply star_inv in Es. destruct Es as [Ho [r [-> Hk]]].
  destruct r as [|v r]; [discriminate Hk|]. rewrite match_here_One in Hk.
  destruct (atom_ok (OneOf "xyz") v) eqn:Ev; [|discriminate Hk].
  simpl in Hk. injection Hk as <-. simpl in H. injection H as <-.
  exists o, v, r. repeat split; assumption.
Qed.

(** The block, once its pattern has matched. *)
Lemma block_matched (text derivative_part function_part : string)
    (m : list string) :
  derivative_guard text = true ->
  split_space_1 text = [derivative_part; function_part] ->
  re_match (derivative_pattern derivative_part) derivative_part = Some m ->
  convert_shortcut text =
  OK (frac_template (str_or (group m 1) "1") (group m 2) function_part).
Proof.
  intros G Hsplit Hre. unfold convert_shortcut. rewrite G, Hsplit.
  unfold derivative_block, unpack2, bind, derivative_pattern in *.
  destruct (contains "/" derivative_part); now rewrite Hre.
Qed.






Lemma str_or_order (o : string) :
  all_chars is_decimal o = true ->
  str_or o "1" <> EmptyString /\ all_chars is_decimal (str_or o "1") = true.
Proof.
  intros H. destruct o as [|c o]; simpl; [now split|].
  split; [discriminate|exact H].
Qed.

(** The two ways out of the block. *)
Lemma block_result (text a b : string) :
  derivative_guard text = true ->
  split_space_1 text = [a; b] ->
  match re_match (derivative_pattern a) a with
  | None => convert_shortcut text = OK text
  | Some _ =>
      exists order v,
        order <> EmptyString /\ all_chars is_decimal order = true /\
        mem v "xyz" = true /\
        convert_shortcut text =
        OK (frac_template order (String v EmptyString) b)
  end.
Proof.
  intros G Hsplit.
  destruct (re_match (derivative_pattern a) a) as [m|] eqn:Hre.
  - rewrite (block_matched text a b m G Hsplit Hre).
    unfold derivative_pattern in Hre. destruct (contains "/" a).
    + apply slash_pattern_inv in Hre.
      destruct Hre as [o1 [v [o2 [rest [_ [H1 [Hv [_ ->]]]]]]]].
      exists (str_or o1 "1"), v. destruct (str_or_order o1 H1) as [Hne Hd].
      now repeat split.
    + apply plain_pattern_inv in Hre.
      destruct Hre as [o [v [rest [_ [Ho [Hv ->]]]]]].
      exists (str_or o "1"), v. destruct (str_or_order o Ho) as [Hne Hd].
      now repeat split.
  - now apply (ShortcutFacts.unmatched_returns_text text a b).
Qed.

(** X3. Whenever the derivative notation is recognized, the result is a
    fraction [\frac{d^n}{dv^n}] with a decimal order [n] of at least one
    digit and a variable [v] among x, y, z, followed by a space and by
    all that stood after the first space of the input, kept as it was:
    shortcuts in the function part are not expanded. *)
Theorem convert_shortcut_derivative_shape (text : string) :
  derivative_recognized text = true ->
  exists derivative_part function_part order v,
    text = derivative_part ++ " " ++ function_part /\
    contains " " derivative_part = false /\
    order <> EmptyString /\ all_chars is_decimal order = true /\
    mem v "xyz" = true /\
    convert_shortcut text =
    OK ("\frac{d^" ++ order ++ "}{d" ++ String v EmptyString ++ "^" ++ order
          ++ "} " ++ function_part).
Proof.
  unfold derivative_recognized. intros H.
  apply andb_true_iff in H. destruct H as [G H].
  destruct (split_space_1_cases text) as [[a E]|[a [b E]]];
    rewrite E in H; [discriminate H|].
  pose proof (block_result text a b G E) as R.
  destruct (re_match (derivative_pattern a) a); [|discriminate H].
  destruct R as [order [v [Hne [Hd [Hv Hc]]]]].
  destruct (split_space_1_two text a b E) as [Ht Hsp].
  exists a, b, order, v. now repeat split.
Qed.

Lemma convert_shortcut_derivative_shape_witness :
  derivative_recognized "d/dy alpha y" = true /\
  exists derivative_part function_part order v,
    "d/dy alpha y" = derivative_part ++ " " ++ function_part /\
    contains " " derivative_part = false /\
    order <> EmptyString /\ all_chars is_decimal order = true /\
    mem v "xyz" = true /\
    convert_shortcut "d/dy alpha y" =
    OK ("\frac{d^" ++ order ++ "}{d" ++ String v EmptyString ++ "^" ++ order
          ++ "} " ++ function_part).
Proof.
  split; [reflexivity|].
  apply (convert_shortcut_derivative_shape "d/dy alpha y"). reflexivity.
Defined.

(** *** The placeholder marker *)

Lemma intersperse_all_chars (p : ascii -> bool) (new s : string) :
  all_chars p new = true ->
  all_chars p s = true ->
  all_chars p (intersperse new s) = true.
Proof.
  intros Hnew. induction s as [|c s IH]; intros Hs; [exact Hnew|].
  simpl in Hs. apply andb_true_iff in Hs. destruct Hs as [Hc Hs].
  simpl. rewrite all_chars_app, Hnew. simpl. now rewrite Hc, IH.
Qed.

Lemma replace_all_chars (p : ascii -> bool) (old new s : string) :
  all_chars p new = true ->
  all_chars p s = true ->
  all_chars p (replace old new s) = true.
Proof.
  intros Hnew Hs. unfold replace. destruct old.
  - now apply intersperse_all_chars.
  - now apply replace_from_all_chars.
Qed.

Lemma no_char_all_chars (c : ascii) (s : string) :
  contains (String c EmptyString) s = false <->
  all_chars (fun d => negb (Ascii.eqb c d)) s = true.
Proof. rewrite contains_char. apply negb_false_iff. Qed.

(** The loop over any table keeps a text free of the marker. *)
Lemma fold_apply_shortcut_no_marker (table : dict) (text : string) :
  contains "#" text = false ->
  contains "#" (fold_left apply_shortcut table text) = false.
Proof.
  revert text. induction table as [|[shortcut latex] table IH];
    intros text H; [exact H|].
  simpl. apply IH.
  destruct (contains shortcut text); [|exact H]. simpl.
  destruct (contains "#" latex) eqn:E; [exact H|]. simpl.
  apply no_char_all_chars. apply replace_all_chars; now apply no_char_all_chars.
Qed.

Lemma decimals_no_marker (o : string) :
  all_chars is_decimal o = true -> contains "#" o = false.
Proof.
  intros H. apply no_char_all_chars. revert H. apply all_chars_impl.
  intros c Hc. destruct (Ascii.eqb_spec "#" c) as [<-|]; [discriminate Hc|reflexivity].
Qed.

(** X4. [convert_shortcut] never brings in the placeholder marker: a text
    without [#] is turned into a text without [#], so the templates of
    [abs] and [//] cannot appear in the result. *)
Theorem convert_shortcut_no_marker (text out : string) :
  contains "#" text = false ->
  convert_shortcut text = OK out ->
  contains "#" out = false.
Proof.
  intros Hno Hout.
  assert (Htable : convert_shortcut text = OK (other_shortcuts text) ->
                   contains "#" out = false).
  { intros E. rewrite E in Hout. injection Hout as <-.
    now apply fold_apply_shortcut_no_marker. }
  destruct (derivative_guard text) eqn:G.
  - destruct (split_space_1_cases text) as [[a E]|[a [b E]]].
    + apply Htable. unfold convert_shortcut. now rewrite G, E.
    + pose proof (block_result text a b G E) as R.
      destruct (split_space_1_two text a b E) as [Ht _].
      assert (Hb : contains "#" b = false).
      { rewrite Ht in Hno.
        rewrite ShortcutFacts.contains_char_app in Hno.
        apply orb_false_iff in Hno. destruct Hno as [_ Hno].
        rewrite ShortcutFacts.contains_char_app in Hno.
        now apply orb_false_iff in Hno. }
      destruct (re_match (derivative_pattern a) a).
      * destruct R as [order [v [_ [Hd [Hv R]]]]].
        rewrite R in Hout. injection Hout as <-.
        unfold frac_template. pose proof (decimals_no_marker order Hd) as Ho.
        assert (Hvm : Ascii.eqb "#" v = false).
        { destruct (Ascii.eqb_spec "#" v) as [<-|]; [discriminate Hv|reflexivity]. }
        repeat (rewrite ShortcutFacts.contains_char_app
                || rewrite ShortcutFacts.contains_char_cons).
        rewrite Ho, Hb, Hvm. reflexivity.
      * rewrite R in Hout. injection Hout as <-. exact Hno.
  - apply Htable. unfold convert_shortcut. now rewrite G.
Qed.

Lemma convert_shortcut_no_marker_witness :
  contains "#" "abs(x) // 2" = false /\
  convert_shortcut "abs(x) // 2" = OK "abs(x) // 2" /\
  contains "#" "abs(x) // 2" = false.
Proof.
  split; [reflexivity|]. split; [reflexivity|].
  apply (convert_shortcut_no_marker "abs(x) // 2" "abs(x) // 2"); reflexivity.
Defined.

(** *** The texts that come back unchanged *)

Lemma apply_shortcut_count_le (item : string * string) (text : string) :
  adds_backslash item = true ->
  count_char "\" text <= count_char "\" (apply_shortcut text item).
Proof.
  destruct item as [k v]. unfold adds_backslash, apply_shortcut. cbn [fst snd].
  intros H. apply andb_true_iff in H. destruct H as [H _].
  apply andb_true_iff in H. destruct H as [Hne H0].
  apply negb_true_iff, String.eqb_neq in Hne. apply Nat.eqb_eq in H0.
  destruct (contains k text && negb (contains "#" v)); [|lia].
  now apply replace_count_le.
Qed.

Lemma apply_shortcut_count_lt (item : string * string) (text : string) :
  adds_backslash item = true ->
  contains (fst item) text && negb (contains "#" (snd item)) = true ->
  count_char "\" text < count_char "\" (apply_shortcut text item).
Proof.
  destruct item as [k v]. unfold adds_backslash, apply_shortcut. cbn [fst snd].
  intros H Happ. rewrite Happ.
  apply andb_true_iff in Happ. destruct Happ as [Hin Hv].
  apply negb_true_iff in Hv. rewrite Hv, orb_false_l in H.
  apply andb_true_iff in H. destruct H as [H H1].
  apply andb_true_iff in H. destruct H as [Hne H0].
  apply negb_true_iff, String.eqb_neq in Hne.
  apply Nat.eqb_eq in H0. apply Nat.leb_le in H1.
  pose proof (replace_count_lt "\" k v text Hne H0 Hin). lia.
Qed.

Lemma fold_count_le (table : dict) (text : string) :
  forallb adds_backslash table = true ->
  count_char "\" text <= count_char "\" (fold_left apply_shortcut table text).
Proof.
  revert text. induction table as [|item table IH]; intros text H; [simpl; lia|].
  simpl in H. apply andb_true_iff in H. destruct H as [Hi Ht].
  simpl. pose proof (apply_shortcut_count_le item text Hi).
  specialize (IH (apply_shortcut text item) Ht). lia.
Qed.

Lemma fold_count_lt (table : dict) (text : string) :
  forallb adds_backslash table = true ->
  existsb (fun item => contains (fst item) text && negb (contains "#" (snd item)))
          table = true ->
  count_char "\" text < count_char "\" (fold_left apply_shortcut table text).
Proof.
  revert text. induction table as [|item table IH]; intros text H E;
    [discriminate E|].
  simpl in H. apply andb_true_iff in H. destruct H as [Hi Ht].
  simpl in E. simpl fold_left.
  destruct (contains (fst item) text && negb (contains "#" (snd item))) eqn:A.
  - pose proof (apply_shortcut_count_lt item text Hi A).
    pose proof (fold_count_le table (apply_shortcut text item) Ht). lia.
  - simpl in E.
    assert (Hid : apply_shortcut text item = text).
    { destruct item as [k v]. unfold apply_shortcut. simpl in A. now rewrite A. }
    rewrite Hid. now apply IH.
Qed.

Lemma get_all_shortcuts_add_backslash :
  forallb adds_backslash get_all_shortcuts = true.
Proof. vm_compute. reflexivity. Qed.

(** The loop changes a text exactly when a key it applies occurs in it. *)
Lemma other_shortcuts_unchanged_iff (text : string) :
  other_shortcuts text = text <-> table_token_in text = false.
Proof.
  split.
  - unfold other_shortcuts, table_token_in. intros H.
    destruct (existsb _ get_all_shortcuts) eqn:E; [|reflexivity].
    pose proof (fold_count_lt get_all_shortcuts text
                  get_all_shortcuts_add_backslash E) as L.
    rewrite H in L. now apply Nat.lt_irrefl in L.
  - unfold other_shortcuts, table_token_in.
    apply ShortcutFacts.fold_apply_shortcut_id.
Qed.

(** X5. The inputs that [convert_shortcut] returns unchanged are, inside
    the derivative block (guard and two parts), those the pattern does
    not match, and elsewhere those in which no key with a plain
    replacement occurs. *)
Theorem convert_shortcut_unchanged_iff (text : string) :
  convert_shortcut text = OK text <->
  if block_entered text
  then derivative_recognized text = false
  else table_token_in text = false.
Proof.
  unfold block_entered, derivative_recognized.
  assert (Htable : convert_shortcut text = OK (other_shortcuts text) ->
                   (convert_shortcut text = OK text <->
                    table_token_in text = false)).
  { intros E. rewrite E, <- other_shortcuts_unchanged_iff.
    split; [now intros [= ->]|now intros ->]. }
  destruct (derivative_guard text) eqn:G; simpl andb.
  - destruct (split_space_1_cases text) as [[a E]|[a [b E]]]; rewrite E.
    + apply Htable. unfold convert_shortcut. now rewrite G, E.
    + change (List.length [a; b] =? 2)%nat with true. cbv iota.
      pose proof (block_result text a b G E) as R.
      destruct (re_match (derivative_pattern a) a).
      * destruct R as [order [v [_ [_ [_ R]]]]]. rewrite R.
        split; [|discriminate]. intros [= Ht]. exfalso.
        unfold derivative_guard in G. apply andb_true_iff in G.
        destruct G as [G _]. rewrite <- Ht in G. discriminate G.
      * split; [reflexivity|intros _; exact R].
  - apply Htable. unfold convert_shortcut. now rewrite G.
Qed.

(** *** The merged table *)



End ShortcutMore.

(** ** More on SympyToMatlab.sympy_to_matlab *)

Module MatlabMore.
Import PyStr PyStrFacts SympyToMatlab MatlabFacts.

(** Induction on expressions along the way of the conversion. *)
Lemma Expr_conversion_ind (P : Expr -> Prop) :
  (forall function limits, P function -> P (Integral function limits)) ->
  (forall expr variables n, P expr -> P (Derivative expr variables n)) ->
  (forall lhs rhs, P lhs -> P rhs -> P (Eq lhs rhs)) ->
  (forall name args, Forall P args -> P (Function name args)) ->
  (forall text, P (Generic text)) ->
  forall e, P e.
Proof.
  intros HI HD HE HF HG. fix IH 1. intros [f ls|f vs n|l r|name args|text].
  - apply HI, IH.
  - apply HD, IH.
  - apply HE; apply IH.
  - apply HF. induction args as [|a args IHargs]; constructor;
      [apply IH|exact IHargs].
  - apply HG.
Qed.

Section Converter.

Variable sstr : Expr -> string.

(** X7. An equation is printed as [<lhs> == <rhs>] with both sides
    converted; when the left side raises, its exception is the one that
    comes out and the right side plays no part; otherwise an exception of
    the right side comes out. *)
Theorem sympy_to_matlab_equation (lhs rhs : Expr) :
  (forall l r,
      sympy_to_matlab_expr sstr lhs = OK l ->
      sympy_to_matlab_expr sstr rhs = OK r ->
      sympy_to_matlab sstr (Obj (Eq lhs rhs)) = OK (l ++ " == " ++ r)) /\
  (forall e,
      sympy_to_matlab_expr sstr lhs = Raise e ->
      sympy_to_matlab sstr (Obj (Eq lhs rhs)) = Raise e) /\
  (forall l e,
      sympy_to_matlab_expr sstr lhs = OK l ->
      sympy_to_matlab_expr sstr rhs = Raise e ->
      sympy_to_matlab sstr (Obj (Eq lhs rhs)) = Raise e).
Proof.
  rewrite sympy_to_matlab_Obj.
  change (sympy_to_matlab_expr sstr (Eq lhs rhs))
    with (_handle_equation (sympy_to_matlab_expr sstr) lhs rhs).
  unfold _handle_equation. repeat split.
  - intros l r -> ->. reflexivity.
  - intros e ->. reflexivity.
  - intros l e -> ->. reflexivity.
Qed.

(** X8. An integral whose first limit has neither one nor three entries,
    such as SymPy's [Integral(f, (x, a))] with a single bound, is not
    converted: once the integrand is done, the unpacking into
    [var, lower, upper] raises.  Without any limit the index raises. *)
Theorem sympy_to_matlab_integral_arity
    (function : Expr) (var_info : list Expr) (others : list (list Expr))
    (integrand_str : string) :
  match function with
  | Integral _ _ => sympy_to_matlab_expr sstr function
  | _ => OK (str sstr function)
  end = OK integrand_str ->
  List.length var_info <> 1 ->
  List.length var_info <> 3 ->
  sympy_to_matlab sstr (Obj (Integral function (var_info :: others))) =
    Raise (UnpackError 3 (List.length var_info)) /\
  sympy_to_matlab sstr (Obj (Integral function [])) = Raise IndexError.
Proof.
  intros H H1 H3. split.
  - rewrite (integral_format sstr function var_info others integrand_str H).
    destruct var_info as [|v1 [|v2 [|v3 [|v4 t]]]]; try reflexivity;
      simpl in *; congruence.
  - rewrite sympy_to_matlab_Obj.
    change (sympy_to_matlab_expr sstr (Integral function []))
      with (_handle_integral sstr (sympy_to_matlab_expr sstr) function []).
    unfold _handle_integral, sympy_to_str. rewrite H. reflexivity.
Qed.

(** X9. Only the first limit of an integral and the first variable of a
    derivative are read.  The integral over several variables
    [Integral(f, x, y)] is printed as the integral over the first one, and
    [Derivative(f, x, y)], whose [derivative_count] is 2, as the second
    derivative with respect to [x]. *)
Theorem sympy_to_matlab_first_slot_only :
  (forall function var_info others,
      sympy_to_matlab sstr (Obj (Integral function (var_info :: others))) =
      sympy_to_matlab sstr (Obj (Integral function [var_info]))) /\
  (forall expr var_info others n,
      sympy_to_matlab sstr (Obj (Derivative expr (var_info :: others) n)) =
      sympy_to_matlab sstr (Obj (Derivative expr [var_info] n))) /\
  (forall f x y,
      sympy_to_matlab sstr
        (Obj (Derivative (Generic f) [Var (Generic x); Var (Generic y)] 2)) =
      OK ("diff(" ++ power_to_caret f ++ ", '" ++ x ++ "', 2)")).
Proof.
  split; [reflexivity|]. split; [reflexivity|].
  intros f x y. rewrite sympy_to_matlab_Obj.
  change (sympy_to_matlab_expr sstr
            (Derivative (Generic f) [Var (Generic x); Var (Generic y)] 2))
    with (OK ("diff(" ++ replace "**" "^" f ++ ", '" ++ x ++ "', 2)")
          : Exc string).
  now rewrite replace_power_to_caret.
Qed.

Lemma bind_ok {A B : Type} (m : Exc A) (k : A -> Exc B) (b : B) :
  bind m k = OK b <-> exists a, m = OK a /\ k a = OK b.
Proof.
  destruct m as [a|e]; simpl; split.
  - intros H. now exists a.
  - now intros [a' [[= ->] H]].
  - discriminate.
  - now intros [a [H _]].
Qed.

(** X12. Converting again what the generic case returned changes nothing:
    the result holds no [**] any more. *)
Theorem sympy_to_matlab_generic_stable (text out : string) :
  sympy_to_matlab sstr (Obj (Generic text)) = OK out ->
  sympy_to_matlab sstr (Obj (Generic out)) = OK out.
Proof.
  rewrite !sympy_to_matlab_Obj.
  change (sympy_to_matlab_expr sstr (Generic text))
    with (OK (replace "**" "^" text) : Exc string).
  change (sympy_to_matlab_expr sstr (Generic out))
    with (OK (replace "**" "^" out) : Exc string).
  rewrite !replace_power_to_caret. intros [= <-]. f_equal.
  apply power_to_caret_without_power, power_to_caret_no_power.
Qed.

End Converter.

Lemma sympy_to_matlab_equation_witness :
  sympy_to_matlab_expr no_printer (Generic "x**2") = OK "x^2" /\
  sympy_to_matlab_expr no_printer (Function "ln" [Generic "y"]) = OK "log(y)" /\
  sympy_to_matlab no_printer
    (Obj (Eq (Generic "x**2") (Function "ln" [Generic "y"]))) =
  OK "x^2 == log(y)".
Proof.
  split; [reflexivity|]. split; [reflexivity|].
  apply (proj1 (sympy_to_matlab_equation no_printer
                  (Generic "x**2") (Function "ln" [Generic "y"]))
           "x^2" "log(y)");
    reflexivity.
Defined.

Lemma sympy_to_matlab_integral_arity_witness :
  List.length [Generic "x"; Generic "1"] <> 1 /\
  List.length [Generic "x"; Generic "1"] <> 3 /\
  sympy_to_matlab no_printer
    (Obj (Integral (Generic "x**2") [[Generic "x"; Generic "1"]])) =
  Raise (UnpackError 3 2).
Proof.
  split; [discriminate|]. split; [discriminate|].
  apply (sympy_to_matlab_integral_arity no_printer
           (Generic "x**2") [Generic "x"; Generic "1"] [] "x**2");
    (reflexivity || discriminate).
Defined.

Lemma sympy_to_matlab_generic_stable_witness :
  sympy_to_matlab no_printer (Obj (Generic "x***2")) = OK "x^*2" /\
  sympy_to_matlab no_printer (Obj (Generic "x^*2")) = OK "x^*2".
Proof.
  split; [reflexivity|].
  apply (sympy_to_matlab_generic_stable no_printer "x***2" "x^*2").
  reflexivity.
Defined.

(** *** Texts without the power operator *)

Lemma no_power_cons (c : ascii) (s : string) :
  Ascii.eqb c "*" = false ->
  contains "**" (String c s) = contains "**" s.
Proof.
  intros H. cbn [contains startswith].
  now rewrite (Ascii.eqb_sym "*" c), H.
Qed.

Lemma no_power_tail (c : ascii) (s : string) :
  contains "**" (String c s) = false -> contains "**" s = false.
Proof. intros H. now apply contains_cons_false in H. Qed.

Lemma app_left_free (p s : string) :
  star_free p = true ->
  contains "**" s = false ->
  contains "**" (p ++ s) = false.
Proof.
  unfold star_free. induction p as [|c p IH]; intros Hp Hs; [exact Hs|].
  simpl in Hp. apply andb_true_iff in Hp. destruct Hp as [Hc Hp].
  apply negb_true_iff in Hc.
  change (String c p ++ s) with (String c (p ++ s)).
  rewrite (no_power_cons c _ Hc). now apply IH.
Qed.

Lemma star_free_no_power (s : string) :
  star_free s = true -> contains "**" s = false.
Proof.
  intros H. rewrite <- (append_empty_r s). now apply app_left_free.
Qed.

(** Two texts without the operator, joined where the second begins with
    something else than a star. *)
Lemma app_sep (a : string) (c : ascii) (b : string) :
  contains "**" a = false ->
  Ascii.eqb c "*" = false ->
  contains "**" (String c b) = false ->
  contains "**" (a ++ String c b) = false.
Proof.
  intros Ha Hc Hb. induction a as [|x a IH]; [exact Hb|].
  pose proof (no_power_tail x a Ha) as Ha'. specialize (IH Ha').
  change (String x a ++ String c b) with (String x (a ++ String c b)).
  change (contains "**" (String x (a ++ String c b)))
    with (startswith "**" (String x (a ++ String c b))
          || contains "**" (a ++ String c b)).
  rewrite IH, orb_false_r.
  destruct a as [|y a].
  - change (EmptyString ++ String c b) with (String c b).
    rewrite startswith_power, (Ascii.eqb_sym "*" c), Hc. apply andb_false_r.
  - change (String y a ++ String c b) with (String y (a ++ String c b)).
    rewrite startswith_power.
    apply contains_cons_false in Ha. destruct Ha as [Hh _].
    now rewrite startswith_power in Hh.
Qed.

Lemma join_no_power (strs : list string) :
  Forall (fun s => contains "**" s = false) strs ->
  contains "**" (join ", " strs) = false.
Proof.
  induction 1 as [|s strs Hs Hstrs IH]; [reflexivity|].
  destruct strs as [|t strs]; [exact Hs|].
  change (join ", " (s :: t :: strs))
    with (s ++ String "," (" " ++ join ", " (t :: strs))).
  apply app_sep; [exact Hs|reflexivity|].
  now apply (app_left_free ", ").
Qed.

Lemma dict_get_star_free (d : list (string * string)) (k default : string) :
  forallb (fun item => star_free (snd item)) d = true ->
  star_free default = true ->
  star_free (dict_get d k default) = true.
Proof.
  intros Hd Hk. induction d as [|[k' v] d IH]; [exact Hk|].
  simpl in Hd. apply andb_true_iff in Hd. destruct Hd as [Hv Hd].
  simpl. destruct (String.eqb k k'); [exact Hv|now apply IH].
Qed.

Lemma string_of_uint_star_free (d : Decimal.uint) :
  star_free (NilEmpty.string_of_uint d) = true.
Proof. induction d; simpl; try reflexivity; exact IHd. Qed.

Lemma str_int_star_free (n : Z) : star_free (str_int n) = true.
Proof.
  assert (H : forall d, star_free (NilZero.string_of_uint d) = true).
  { intros d. unfold NilZero.string_of_uint.
    destruct d; try reflexivity; apply (string_of_uint_star_free (_ d)). }
  unfold str_int, NilZero.string_of_int.
  destruct (Z.to_int n) as [d|d]; [apply H|].
  change (star_free (String "-" (NilZero.string_of_uint d)))
    with (star_free (NilZero.string_of_uint d)). apply H.
Qed.

Lemma star_free_app (a b : string) :
  star_free (a ++ b) = star_free a && star_free b.
Proof. apply all_chars_app. Qed.

Section PowerFree.

Variable sstr : Expr -> string.

Lemma derivative_text_no_power (func_str name : string) (order : Z) :
  contains "**" func_str = false ->
  star_free name = true ->
  contains "**" ("diff(" ++ func_str ++ ", '" ++ name ++ "')") = false /\
  contains "**" ("diff(" ++ func_str ++ ", '" ++ name ++ "', "
                   ++ str_int order ++ ")") = false.
Proof.
  intros Hf Hn. split.
  - apply (app_left_free "diff("); [reflexivity|].
    apply (app_sep func_str "," (" '" ++ name ++ "')")); [exact Hf|reflexivity|].
    apply star_free_no_power.
    change (star_free (", '" ++ name ++ "')") = true).
    now rewrite !star_free_app, Hn.
  - apply (app_left_free "diff("); [reflexivity|].
    apply (app_sep func_str "," (" '" ++ name ++ "', " ++ str_int order ++ ")"));
      [exact Hf|reflexivity|].
    apply star_free_no_power.
    change (star_free (", '" ++ name ++ "', " ++ str_int order ++ ")") = true).
    now rewrite !star_free_app, Hn, str_int_star_free.
Qed.

(** X13. Outside integrals the result is free of Python's power
    operator: for an expression built without [Integral], with function
    names free of stars and derivatives taken with respect to plain
    symbols free of stars, the text returned holds no [**]. *)
Theorem sympy_to_matlab_no_power (e : Expr) (out : string) :
  integral_free e = true ->
  sympy_to_matlab sstr (Obj e) = OK out ->
  contains "**" out = false.
Proof.
  rewrite sympy_to_matlab_Obj. revert out.
  induction e as [f ls IH|f vs n IH|l r IHl IHr|name args IH|text]
    using Expr_conversion_ind; intros out Hfree Hout.
  - discriminate Hfree.
  - cbn [integral_free] in Hfree. apply andb_true_iff in Hfree.
    destruct Hfree as [Hf Hvs].
    change (sympy_to_matlab_expr sstr (Derivative f vs n))
      with (_handle_derivative sstr (sympy_to_matlab_expr sstr) f vs n) in Hout.
    unfold _handle_derivative in Hout.
    destruct vs as [|vi vs']; [discriminate Hvs|]. cbn [index0 bind] in Hout.
    destruct vi as [v|v order]; (destruct v as [| | | |name]; try discriminate Hvs);
      apply bind_ok in Hout; destruct Hout as [s [Hs Hout]];
      specialize (IH s Hf Hs); cbn [str] in Hout.
    + destruct (derivative_text_no_power s name n IH Hvs) as [H1 H2].
      destruct (n =? 1)%Z; injection Hout as <-; assumption.
    + destruct (derivative_text_no_power s name order IH Hvs) as [H1 H2].
      destruct (order =? 1)%Z; injection Hout as <-; assumption.
  - cbn [integral_free] in Hfree. apply andb_true_iff in Hfree.
    destruct Hfree as [Hl Hr].
    change (sympy_to_matlab_expr sstr (Eq l r))
      with (_handle_equation (sympy_to_matlab_expr sstr) l r) in Hout.
    unfold _handle_equation in Hout.
    apply bind_ok in Hout. destruct Hout as [a [Ha Hout]].
    apply bind_ok in Hout. destruct Hout as [b [Hb Hout]].
    injection Hout as <-.
    apply (app_sep a " " ("== " ++ b)); [now apply IHl|reflexivity|].
    apply (app_left_free " == "); [reflexivity|now apply IHr].
  - cbn [integral_free] in Hfree. apply andb_true_iff in Hfree.
    destruct Hfree as [Hname Hargs].
    change (sympy_to_matlab_expr sstr (Function name args))
      with (_handle_function (sympy_to_matlab_expr sstr) name args) in Hout.
    unfold _handle_function in Hout.
    apply bind_ok in Hout. destruct Hout as [ss [Hss Hout]].
    assert (Hjoin : contains "**" (join ", " ss ++ ")") = false).
    { apply (app_sep (join ", " ss) ")" EmptyString); [|reflexivity|reflexivity].
      apply join_no_power. apply mapM_Forall2 in Hss.
      clear Hout. revert Hargs IH. induction Hss as [|a s args ss Ha _ IHss];
        intros Hargs IH; constructor.
      - inversion IH as [|? ? Hhead _]; subst.
        simpl in Hargs. apply andb_true_iff in Hargs.
        now apply (Hhead s (proj1 Hargs)).
      - inversion IH; subst. simpl in Hargs. apply andb_true_iff in Hargs.
        now apply IHss. }
    assert (Hcall : forall f, star_free f = true ->
                              contains "**" (f ++ "(" ++ join ", " ss ++ ")") = false).
    { intros f Hf. apply app_left_free; [exact Hf|].
      now apply (app_left_free "("). }
    destruct (String.eqb name "abs").
    + assert (E : out = "abs" ++ "(" ++ join ", " ss ++ ")")
        by (now injection Hout).
      rewrite E. now apply Hcall.
    + assert (E : out = dict_get function_mappings name name
                          ++ "(" ++ join ", " ss ++ ")")
        by (now injection Hout).
      rewrite E. apply Hcall. now apply dict_get_star_free.
  - change (sympy_to_matlab_expr sstr (Generic text))
      with (OK (replace "**" "^" text) : Exc string) in Hout.
    rewrite replace_power_to_caret in Hout. injection Hout as <-.
    apply power_to_caret_no_power.
Qed.

End PowerFree.

Lemma sympy_to_matlab_no_power_witness :
  integral_free
    (Eq (Derivative (Generic "x**3") [Var (Generic "x")] 2)
        (Function "ln" [Generic "y**2"; Generic "6*x"])) = true /\
  sympy_to_matlab no_printer
    (Obj (Eq (Derivative (Generic "x**3") [Var (Generic "x")] 2)
             (Function "ln" [Generic "y**2"; Generic "6*x"]))) =
  OK "diff(x^3, 'x', 2) == log(y^2, 6*x)" /\
  contains "**" "diff(x^3, 'x', 2) == log(y^2, 6*x)" = false.
Proof.
  split; [reflexivity|]. split; [reflexivity|].
  apply (sympy_to_matlab_no_power no_printer
           (Eq (Derivative (Generic "x**3") [Var (Generic "x")] 2)
               (Function "ln" [Generic "y**2"; Generic "6*x"])));
    reflexivity.
Defined.

End MatlabMore.
